(** * The blog views of [mysite]: a shallow embedding of [blog/views.py]

    The four request handlers ([post_detail], [PostListView], [post_share],
    [post_comment]) are glue over an object store, a form-validation
    facility, a template renderer and a mail facility.  The handlers are
    embedded as computations in a state-and-exception monad over a [World]
    made of the two tables, the mail outbox and a log of store accesses. *)

From stdpp Require Import gmap strings list fin_maps.

Local Open Scope string_scope.
Local Open Scope list_scope.
Local Open Scope Z_scope.

(** ** Data model *)

(** Modelled from the spec: blog/models.py is not among the sources.  A Post
    has an id, a title, a slug, a publish timestamp and a status; the
    lookups of the views read the year, month and day of the timestamp. *)
Inductive Status := DRAFT | PUBLISHED.

#[global] Instance Status_eq_dec : EqDecision Status.
Proof. solve_decision. Defined.

(** A timestamp is a Python datetime, whose year lies between 1 and 9999. *)
Record DateTime := mkDateTime {
  dt_year : Z;
  dt_month : Z;
  dt_day : Z;
  dt_year_range : Is_true (bool_decide (1 <= dt_year <= 9999))
}.

Record Post := mkPost {
  Post_id : Z;
  Post_title : string;
  Post_slug : string;
  Post_publish : DateTime;
  Post_status : Status
}.

(** Modelled from the spec: blog/models.py is not among the sources.  A
    Comment has a name, an email, a body, an active flag and the Post that
    owns it.  The primary key and the owning post are absent ([None]) on an
    instance that was built but not saved or attached yet. *)
Record Comment := mkComment {
  Comment_pk : option Z;
  Comment_post : option Z;
  Comment_name : string;
  Comment_email : string;
  Comment_body : string;
  Comment_active : bool
}.

#[global] Instance DateTime_eq_dec : EqDecision DateTime.
Proof.
  intros [y1 m1 d1 r1] [y2 m2 d2 r2].
  destruct (decide (y1 = y2)) as [Hy|Hy];
    [|right; intros Heq; exact (Hy (f_equal dt_year Heq))].
  destruct (decide (m1 = m2)) as [Hm|Hm];
    [|right; intros Heq; exact (Hm (f_equal dt_month Heq))].
  destruct (decide (d1 = d2)) as [Hd|Hd];
    [|right; intros Heq; exact (Hd (f_equal dt_day Heq))].
  left. subst. f_equal. apply proof_irrel.
Defined.
#[global] Instance Post_eq_dec : EqDecision Post.
Proof. solve_decision. Defined.
#[global] Instance Comment_eq_dec : EqDecision Comment.
Proof. solve_decision. Defined.

(** The arguments of [send_mail]. *)
Record EmailMessage := mkEmail {
  subject : string;
  message : string;
  from_email : option string;
  recipient_list : list string
}.

(** One entry per access of the object store. *)
Inductive DbOp :=
| SELECT (table : string)
| INSERT (table : string).

(** The state the handlers run against: the rows of the two tables in the
    store's default order, the messages handed to the mail facility, and
    the accesses made to the store. *)
Record World := mkWorld {
  posts : list Post;
  comments : list Comment;
  outbox : list EmailMessage;
  db_log : list DbOp
}.

(** The primary key of a table is unique: the store enforces it. *)
Definition pk_unique (w : World) : Prop :=
  NoDup (Post_id <$> posts w).

(** ** Requests, forms and responses *)

Record HttpRequest := mkRequest {
  method : string;
  GET : gmap string string;
  POST : gmap string string
}.

(** A form field: [clean] either rejects the submitted value with a list of
    messages or returns the cleaned value. *)
Record Field := mkField {
  clean : option string -> list string + string
}.

(** A form after construction.  [errors] and [cleaned_data] are what
    [full_clean] leaves behind; an unbound form has neither. *)
Record Form := mkForm {
  is_bound : bool;
  data : gmap string string;
  errors : gmap string (list string);
  cleaned_data : gmap string string
}.

(** [django.core.paginator]: a paginator over a sequence, and one of its
    pages. *)
Record Paginator (A : Type) := mkPaginator {
  object_list : list A;
  per_page : Z;
  orphans : Z;
  allow_empty_first_page : bool
}.
Arguments mkPaginator {A}.
Arguments object_list {A}.
Arguments per_page {A}.
Arguments orphans {A}.
Arguments allow_empty_first_page {A}.

Record Page (A : Type) := mkPage {
  page_object_list : list A;
  number : Z;
  paginator : Paginator A
}.
Arguments mkPage {A}.
Arguments page_object_list {A}.
Arguments number {A}.
Arguments paginator {A}.

(** The values a template context holds. *)
Inductive Value :=
| VNone
| VBool (b : bool)
| VInt (n : Z)
| VPost (p : Post)
| VPosts (ps : list Post)
| VComment (c : Comment)
| VComments (cs : list Comment)
| VForm (f : Form)
| VPaginator (pr : Paginator Post)
| VPage (pg : Page Post).

Inductive HttpResponse :=
| TemplateResponse (template_name : string) (context : gmap string Value)
| HttpResponseNotAllowed (permitted_methods : list string).

Inductive Exception :=
| Http404
| MultipleObjectsReturned
| KeyError (key : string)
| ValueError
| EmptyPage
| BadHeaderError
| MailTransportFailure.

(** ** The monad of the handlers *)

Inductive Result (A : Type) :=
| Ok (a : A)
| Raise (e : Exception).
Arguments Ok {A} a.
Arguments Raise {A} e.

Definition M (A : Type) : Type := World -> Result A * World.

Definition ret {A} (a : A) : M A := fun w => (Ok a, w).

Definition raise {A} (e : Exception) : M A := fun w => (Raise e, w).

Definition bind {A B} (c : M A) (k : A -> M B) : M B :=
  fun w =>
    match c w with
    | (Ok a, w') => k a w'
    | (Raise e, w') => (Raise e, w')
    end.

Notation "'do' x <- c ; k" := (bind c (fun x => k))
  (at level 10, x name, c at level 100, k at level 200).
Notation "'do' ' pat <- c ; k" := (bind c (fun x => match x with pat => k end))
  (at level 10, pat pattern, c at level 100, k at level 200).
Notation "'run' c ; k" := (bind c (fun _ => k))
  (at level 10, c at level 100, k at level 200).

(** The world after one more access of the store. *)
Definition logged (op : DbOp) (w : World) : World :=
  mkWorld (posts w) (comments w) (outbox w) (db_log w ++ [op]).

Definition log_op (op : DbOp) : M unit :=
  fun w => (Ok tt, logged op w).

(** ** The object store *)

(** [get_object_or_404(Post, **lookups)]: the rows matching the lookups are
    selected; no row raises [Http404], one row is returned, and several rows
    raise [MultipleObjectsReturned], which the shortcut does not catch. *)
Definition get_object_or_404 (P : Post -> Prop) `{!forall p, Decision (P p)}
  : M Post :=
  run log_op (SELECT "blog_post");
  fun w =>
    match filter P (posts w) with
    | [] => (Raise Http404, w)
    | [p] => (Ok p, w)
    | _ :: _ :: _ => (Raise MultipleObjectsReturned, w)
    end.

(** [post.comments.filter(active=True)]: the comments owned by the post that
    are active, in stored order. *)
Definition Post_comments_filter_active (post : Post) : M (list Comment) :=
  run log_op (SELECT "blog_comment");
  fun w =>
    (Ok (filter (fun c => Comment_post c = Some (Post_id post)
                          /\ Comment_active c = true) (comments w)), w).

(** The primary key the store gives to the next inserted comment. *)
Definition next_pk (cs : list Comment) : Z :=
  foldr Z.max 0 (omap Comment_pk cs) + 1.

(** [comment.save()] on an instance without primary key: the row is
    inserted and the instance receives its key. *)
Definition Comment_save (c : Comment) : M Comment :=
  run log_op (INSERT "blog_comment");
  fun w =>
    let c' := mkComment (Some (next_pk (comments w))) (Comment_post c)
                (Comment_name c) (Comment_email c) (Comment_body c)
                (Comment_active c) in
    (Ok c', mkWorld (posts w) (comments w ++ [c']) (outbox w) (db_log w)).

(** [Post.published.all()]. *)
Definition Post_published_all : M (list Post) :=
  run log_op (SELECT "blog_post");
  fun w => (Ok (filter (fun p => Post_status p = PUBLISHED) (posts w)), w).

(** ** Rendering *)

(** [render(request, template_name, context)]: the response is determined by
    the template and the context; the template engine is opaque. *)
Definition render (request : HttpRequest) (template_name : string)
    (context : gmap string Value) : M HttpResponse :=
  ret (TemplateResponse template_name context).

(** [d[key]] on a Python dict. *)
Definition dict_get (d : gmap string string) (key : string) : M string :=
  match d !! key with
  | Some v => ret v
  | None => raise (KeyError key)
  end.

(** ** Forms *)

(** One turn of the loop of [_clean_fields]: the value submitted under the
    field's name is cleaned; a cleaned value enters [cleaned_data], a
    rejection enters [errors] ([add_error] also drops the name from
    [cleaned_data]). *)
Definition clean_field (data : gmap string string)
    (acc : gmap string (list string) * gmap string string)
    (nf : string * Field) :
    gmap string (list string) * gmap string string :=
  match clean nf.2 (data !! nf.1) with
  | inr value => (acc.1, <[nf.1 := value]> acc.2)
  | inl msgs =>
      (<[nf.1 := default [] (acc.1 !! nf.1) ++ msgs]> acc.1, delete nf.1 acc.2)
  end.

Definition full_clean (fields : list (string * Field))
    (data : gmap string string) :
    gmap string (list string) * gmap string string :=
  fold_left (clean_field data) fields (∅, ∅).

(** [FormClass(data)]: bound when data is given ([request.POST] is a
    dictionary even when it is empty), unbound otherwise. *)
Definition Form_init (fields : list (string * Field))
    (data : option (gmap string string)) : Form :=
  match data with
  | Some d => mkForm true d (full_clean fields d).1 (full_clean fields d).2
  | None => mkForm false ∅ ∅ ∅
  end.

(** [form.is_valid()]: bound and without errors. *)
Definition is_valid (form : Form) : bool :=
  is_bound form && bool_decide (errors form = ∅).

(** Modelled from the spec: blog/models.py is not among the sources; a new
    Comment is active by default.  The instance a model form builds from
    its cleaned data ([construct_instance]): a field without cleaned value
    keeps the model's default. *)
Definition construct_instance (cd : gmap string string) : Comment :=
  mkComment None None
    (default "" (cd !! "name")) (default "" (cd !! "email"))
    (default "" (cd !! "body")) true.

(** [form.save(commit=False)]. *)
Definition ModelForm_save_no_commit (form : Form) : M Comment :=
  if bool_decide (errors form = ∅)
  then ret (construct_instance (cleaned_data form))
  else raise ValueError.

(** ** Pagination ([django.core.paginator], [MultipleObjectMixin]) *)

Definition count {A} (pr : Paginator A) : Z := Z.of_nat (length (object_list pr)).

(** [ceil(a / b)] for a positive [b]. *)
Definition ceil_div (a b : Z) : Z := - ((- a) / b).

Definition num_pages {A} (pr : Paginator A) : Z :=
  if bool_decide (count pr = 0) && negb (allow_empty_first_page pr) then 0
  else ceil_div (Z.max 1 (count pr - orphans pr)) (per_page pr).

Definition validate_number {A} (pr : Paginator A) (n : Z) : M Z :=
  if bool_decide (n < 1) then raise EmptyPage
  else if bool_decide (n > num_pages pr) then raise EmptyPage
  else ret n.

(** [object_list[bottom:top]] for [0 <= bottom]. *)
Definition slice {A} (l : list A) (bottom top : Z) : list A :=
  take (Z.to_nat (top - bottom)) (drop (Z.to_nat bottom) l).

Definition Paginator_page {A} (pr : Paginator A) (n : Z) : M (Page A) :=
  do n <- validate_number pr n;
  let bottom := (n - 1) * per_page pr in
  let top := bottom + per_page pr in
  let top := if bool_decide (top + orphans pr >= count pr) then count pr else top in
  ret (mkPage (slice (object_list pr) bottom top) n pr).

Definition has_other_pages {A} (pg : Page A) : bool :=
  bool_decide (number pg > 1) || bool_decide (number pg < num_pages (paginator pg)).

(** Exceptions of the paginator surface as [Http404]. *)
Definition invalid_page_to_404 {A} (c : M A) : M A :=
  fun w =>
    match c w with
    | (Raise EmptyPage, w') => (Raise Http404, w')
    | r => r
    end.

(** ** What the views take from the rest of the application *)

(** Modelled from the spec: blog/forms.py, blog/models.py and the URL
    configuration are not among the sources.  How each form field cleans
    its value is left open, as are the path of a post ([get_absolute_url]),
    the prefix [build_absolute_uri] puts before a path, Python's [int] on
    a query-string value, and whether the mail transport takes a message
    ([mail_transport], false where it fails). *)
Class BlogApp := {
  CommentForm_name : Field;
  CommentForm_email : Field;
  CommentForm_body : Field;
  EmailPostForm_name : Field;
  EmailPostForm_email : Field;
  EmailPostForm_to : Field;
  EmailPostForm_comments : Field;
  get_absolute_url : Post -> string;
  build_absolute_uri : HttpRequest -> string -> string;
  int : string -> option Z;
  mail_transport : EmailMessage -> bool
}.

(** The line feed of the message body. *)
Definition LF : string := String (Ascii.ascii_of_nat 10) EmptyString.

(** A carriage return or a line feed occurs in the string. *)
Fixpoint has_line_break (s : string) : bool :=
  match s with
  | EmptyString => false
  | String c s' =>
      bool_decide (c = Ascii.ascii_of_nat 10)
      || bool_decide (c = Ascii.ascii_of_nat 13)
      || has_line_break s'
  end.

Section Views.
Context `{BlogApp}.

(** *** Mail *)

(** What [send_mail] raises for a message, if anything: a subject with a
    line break is refused as a bad header, and a failure of the transport
    comes up as it is. *)
Definition mail_fault (m : EmailMessage) : option Exception :=
  if has_line_break (subject m) then Some BadHeaderError
  else if mail_transport m then None
  else Some MailTransportFailure.

(** [send_mail]: the message is handed to the mail facility, which sends it
    or raises. *)
Definition send_mail (subject message : string) (from_email : option string)
    (recipient_list : list string) : M unit :=
  fun w =>
    let m := mkEmail subject message from_email recipient_list in
    let w' := mkWorld (posts w) (comments w) (outbox w ++ [m]) (db_log w) in
    match mail_fault m with
    | Some e => (Raise e, w')
    | None => (Ok tt, w')
    end.

(** Modelled from the spec: blog/forms.py is not among the sources; the
    comment form binds the fields name, email and body. *)
Definition CommentForm (data : option (gmap string string)) : Form :=
  Form_init [("name", CommentForm_name); ("email", CommentForm_email);
             ("body", CommentForm_body)] data.

(** Modelled from the spec: blog/forms.py is not among the sources; the
    share form binds the fields name, email, to and comments. *)
Definition EmailPostForm (data : option (gmap string string)) : Form :=
  Form_init [("name", EmailPostForm_name); ("email", EmailPostForm_email);
             ("to", EmailPostForm_to); ("comments", EmailPostForm_comments)]
            data.

(** *** post_detail *)

(** The lookup [publish__year=year] is turned into the first and the last
    instant of that year before the store is queried, and Python builds
    those for the years 1 to 9999 only. *)
Definition year_lookup_bounds (year : Z) : M unit :=
  if bool_decide (1 <= year <= 9999) then ret tt else raise ValueError.

Definition post_detail (request : HttpRequest) (year month day : Z)
    (post : string) : M HttpResponse :=
  run year_lookup_bounds year;
  do post <- get_object_or_404
               (fun p => Post_status p = PUBLISHED
                         /\ Post_slug p = post
                         /\ dt_year (Post_publish p) = year
                         /\ dt_month (Post_publish p) = month
                         /\ dt_day (Post_publish p) = day);
  do comments <- Post_comments_filter_active post;
  let form := CommentForm None in
  render request "blog/post/detail.html"
    (<["post" := VPost post]>
       (<["comments" := VComments comments]>
          (<["form" := VForm form]> ∅))).

(** *** PostListView *)
Definition paginate_by : Z := 3.
Definition context_object_name : string := "posts".
Definition template_name : string := "blog/post/list.html".

(** [paginate_queryset] of the generic list view, with the defaults the
    class leaves in place (no orphans, an empty first page allowed, the page
    read from the query string). *)
Definition paginate_queryset (request : HttpRequest) (queryset : list Post)
    (page_size : Z) : M (Paginator Post * Page Post * list Post * bool) :=
  let paginator := mkPaginator queryset page_size 0 true in
  do page_number <-
    match GET request !! "page" with
    | None | Some "" => ret 1
    | Some page =>
        match int page with
        | Some n => ret n
        | None =>
            if bool_decide (page = "last") then ret (num_pages paginator)
            else raise Http404
        end
    end;
  do page <- invalid_page_to_404 (Paginator_page paginator page_number);
  ret (paginator, page, page_object_list page, has_other_pages page).

(** The GET handler of the list view. *)
Definition PostListView (request : HttpRequest) : M HttpResponse :=
  do queryset <- Post_published_all;
  do '(paginator, page, queryset, is_paginated) <-
    paginate_queryset request queryset paginate_by;
  render request template_name
    (<["paginator" := VPaginator paginator]>
       (<["page_obj" := VPage page]>
          (<["is_paginated" := VBool is_paginated]>
             (<["object_list" := VPosts queryset]>
                (<[context_object_name := VPosts queryset]> ∅))))).

(** *** post_share *)
Definition post_share (request : HttpRequest) (post_id : Z) : M HttpResponse :=
  do post <- get_object_or_404
               (fun p => Post_id p = post_id /\ Post_status p = PUBLISHED);
  let sent := false in
  do '(form, sent) <-
    (if bool_decide (method request = "POST") then
       let form := EmailPostForm (Some (POST request)) in
       if is_valid form then
         let cd := cleaned_data form in
         let post_url := build_absolute_uri request (get_absolute_url post) in
         do subject <-
           (do name <- dict_get cd "name";
            do email <- dict_get cd "email";
            ret (name +:+ " (" +:+ email +:+ ") recommends you read "
                 +:+ Post_title post));
         do message <-
           (do name <- dict_get cd "name";
            do comments <- dict_get cd "comments";
            ret ("Read " +:+ Post_title post +:+ " at " +:+ post_url
                 +:+ LF +:+ LF +:+ name +:+ "'s comments: " +:+ comments));
         do to <- dict_get cd "to";
         run send_mail subject message None [to];
         ret (form, true)
       else ret (form, sent)
     else ret (EmailPostForm None, sent));
  render request "blog/post/share.html"
    (<["post" := VPost post]>
       (<["form" := VForm form]>
          (<["sent" := VBool sent]> ∅))).

(** *** post_comment *)

(** [@require_POST]: a request whose method is not in the list is answered
    with [HttpResponseNotAllowed]; the view runs otherwise. *)
Definition require_POST {A} (view : HttpRequest -> A -> M HttpResponse)
    (request : HttpRequest) (args : A) : M HttpResponse :=
  if bool_decide (method request ∈ ["POST"])
  then view request args
  else ret (HttpResponseNotAllowed ["POST"]).

(** The body of the view, below the decorator. *)
Definition post_comment_view (request : HttpRequest) (post_id : Z)
    : M HttpResponse :=
  do post <- get_object_or_404
               (fun p => Post_id p = post_id /\ Post_status p = PUBLISHED);
  let comment := None in
  let form := CommentForm (Some (POST request)) in
  do comment <-
    (if is_valid form then
       do comment <- ModelForm_save_no_commit form;
       let comment :=
         mkComment (Comment_pk comment) (Some (Post_id post))
           (Comment_name comment) (Comment_email comment)
           (Comment_body comment) (Comment_active comment) in
       do comment <- Comment_save comment;
       ret (Some comment)
     else ret comment);
  render request "blog/post/comment.html"
    (<["post" := VPost post]>
       (<["form" := VForm form]>
          (<["comment" := from_option VComment VNone comment]> ∅))).

Definition post_comment : HttpRequest -> Z -> M HttpResponse :=
  require_POST post_comment_view.

End Views.


(** ** What the statements below speak about *)

(** [post] is the published post of the store with primary key [post_id]. *)
Definition published_post (w : World) (post_id : Z) (post : Post) : Prop :=
  post ∈ posts w /\ Post_id post = post_id /\ Post_status post = PUBLISHED.

(** The lookup of [post_detail]: published, with that slug, published on
    that day. *)
Definition published_on (year month day : Z) (slug : string) (p : Post)
    : Prop :=
  Post_status p = PUBLISHED
  /\ Post_slug p = slug
  /\ dt_year (Post_publish p) = year
  /\ dt_month (Post_publish p) = month
  /\ dt_day (Post_publish p) = day.

(** Modelled from the spec: blog/models.py is not among the sources; the
    slug of a post is unique for its publish date. *)
Definition slug_unique_for_date (w : World) : Prop :=
  forall p q, p ∈ posts w -> q ∈ posts w ->
    Post_slug p = Post_slug q ->
    dt_year (Post_publish p) = dt_year (Post_publish q) ->
    dt_month (Post_publish p) = dt_month (Post_publish q) ->
    dt_day (Post_publish p) = dt_day (Post_publish q) ->
    p = q.

(** A response that is a rendered page. *)
Definition rendered (r : Result HttpResponse * World) : Prop :=
  exists template context, r.1 = Ok (TemplateResponse template context).

(** The context of a rendered response. *)
Definition context_of (r : Result HttpResponse * World)
    : gmap string Value :=
  match r.1 with
  | Ok (TemplateResponse _ context) => context
  | _ => ∅
  end.

(** The published rows, which [PostListView] paginates. *)
Definition published (w : World) : list Post :=
  filter (fun p => Post_status p = PUBLISHED) (posts w).

(** The number of the last page of the list view. *)
Definition last_page (w : World) : Z :=
  num_pages (mkPaginator (published w) paginate_by 0 true).

(** The rows of page [n] of the list view. *)
Definition page_rows (w : World) (n : Z) : list Post :=
  take 3 (drop (Z.to_nat ((n - 1) * 3)) (published w)).

(** No published post of the store has the primary key [post_id]. *)
Definition no_published_post (w : World) (post_id : Z) : Prop :=
  forall p, p ∈ posts w ->
            ~ (Post_id p = post_id /\ Post_status p = PUBLISHED).

(** Every stored comment has a primary key, and no two share one. *)
Definition comments_keyed (w : World) : Prop :=
  Forall (fun c => is_Some (Comment_pk c)) (comments w)
  /\ NoDup (omap Comment_pk (comments w)).

(** The field accepts the submitted value. *)
Definition accepts (field : Field) (value : option string) : Prop :=
  exists cleaned, clean field value = inr cleaned.

(** The context [post_share] hands to its template. *)
Definition share_context (post : Post) (form : Form) (sent : bool)
    : gmap string Value :=
  <["post" := VPost post]>
    (<["form" := VForm form]>
       (<["sent" := VBool sent]> ∅)).

(** The context [post_comment] hands to its template. *)
Definition comment_context (post : Post) (form : Form)
    (comment : option Comment) : gmap string Value :=
  <["post" := VPost post]>
    (<["form" := VForm form]>
       (<["comment" := from_option VComment VNone comment]> ∅)).

(** The message [post_share] composes from the cleaned fields. *)
Definition share_mail `{BlogApp} (request : HttpRequest) (post : Post)
    (name email to comments : string) : EmailMessage :=
  mkEmail
    (name +:+ " (" +:+ email +:+ ") recommends you read " +:+ Post_title post)
    ("Read " +:+ Post_title post +:+ " at "
     +:+ build_absolute_uri request (get_absolute_url post)
     +:+ LF +:+ LF +:+ name +:+ "'s comments: " +:+ comments)
    None [to].

(** The world after a message was handed to the mail facility. *)
Definition mailed (m : EmailMessage) (w : World) : World :=
  mkWorld (posts w) (comments w) (outbox w ++ [m]) (db_log w).

(** The world after a comment row was inserted. *)
Definition inserted (c : Comment) (w : World) : World :=
  mkWorld (posts w) (comments w ++ [c]) (outbox w)
    (db_log w ++ [INSERT "blog_comment"]).

(** The page number the list view reads from a request: 1 without a page
    argument, the number a numeric argument denotes, the last page for the
    word last. *)
Definition asks_for_page `{BlogApp} (request : HttpRequest) (w : World)
    (n : Z) : Prop :=
  (GET request !! "page" = None /\ n = 1)
  \/ (GET request !! "page" = Some "" /\ n = 1)
  \/ (exists s, GET request !! "page" = Some s /\ s ≠ "" /\ int s = Some n)
  \/ (GET request !! "page" = Some "last" /\ int "last" = None
      /\ n = last_page w).

(** ** A concrete application, used to run the views on sample requests *)
Module Sample.

(** A required text field. *)
Definition CharField : Field :=
  mkField (fun v => match v with
                    | None | Some "" => inl ["This field is required."]
                    | Some s => inr s
                    end).

(** A text field that may be left out. *)
Definition OptionalCharField : Field :=
  mkField (fun v => inr (default "" v)).

Fixpoint has_at (s : string) : bool :=
  match s with
  | EmptyString => false
  | String c s' => bool_decide (c = Ascii.ascii_of_nat 64) || has_at s'
  end.

(** A required field that wants an at sign in its value. *)
Definition EmailField : Field :=
  mkField (fun v => match v with
                    | None | Some "" => inl ["This field is required."]
                    | Some s => if has_at s then inr s
                                else inl ["Enter a valid email address."]
                    end).

Definition digit (c : Ascii.ascii) : option Z :=
  let n := Z.of_nat (Ascii.nat_of_ascii c) in
  if bool_decide (48 <= n <= 57) then Some (n - 48) else None.

Fixpoint digits (acc : Z) (s : string) : option Z :=
  match s with
  | EmptyString => Some acc
  | String c s' =>
      match digit c with
      | Some d => digits (10 * acc + d) s'
      | None => None
      end
  end.

(** Unsigned decimal numerals. *)
Definition parse_int (s : string) : option Z :=
  match s with
  | EmptyString => None
  | _ => digits 0 s
  end.

Definition app : BlogApp := {|
  CommentForm_name := CharField;
  CommentForm_email := EmailField;
  CommentForm_body := CharField;
  EmailPostForm_name := CharField;
  EmailPostForm_email := EmailField;
  EmailPostForm_to := EmailField;
  EmailPostForm_comments := OptionalCharField;
  get_absolute_url := fun p => "/blog/" +:+ Post_slug p +:+ "/";
  build_absolute_uri := fun _ path => "http://testserver" +:+ path;
  int := parse_int;
  mail_transport := fun _ => true
|}.

Definition on (y m d : Z) (range : Is_true (bool_decide (1 <= y <= 9999)))
    : DateTime :=
  mkDateTime y m d range.

Definition p1 := mkPost 1 "First" "first" (on 2024 1 5 I) PUBLISHED.
Definition p2 := mkPost 2 "Second" "second" (on 2024 1 6 I) PUBLISHED.
Definition p3 := mkPost 3 "Notes" "notes" (on 2024 1 7 I) DRAFT.
Definition p4 := mkPost 4 "Third" "third" (on 2024 2 1 I) PUBLISHED.
Definition p5 := mkPost 5 "Fourth" "fourth" (on 2024 2 2 I) PUBLISHED.
Definition p6 := mkPost 6 "Fifth" "fifth" (on 2024 2 3 I) PUBLISHED.
(** A second published post with the slug and the day of [p1]. *)
Definition p7 := mkPost 7 "First again" "first" (on 2024 1 5 I) PUBLISHED.

Definition c1 := mkComment (Some 1) (Some 1) "Ana" "ana@x.com" "Nice post!" true.
Definition c2 := mkComment (Some 2) (Some 1) "Bo" "bo@x.com" "Spam" false.
Definition c3 := mkComment (Some 3) (Some 2) "Cy" "cy@x.com" "Hello" true.

Definition world : World := mkWorld [p1; p2; p3; p4; p5; p6] [c1; c2; c3] [] [].
Definition world_dup : World := mkWorld [p1; p2; p7] [c1] [] [].

Definition form_data (l : list (string * string)) : gmap string string :=
  list_to_map l.

Definition get_request : HttpRequest := mkRequest "GET" ∅ ∅.
Definition page_request (page : string) : HttpRequest :=
  mkRequest "GET" (form_data [("page", page)]) ∅.
Definition post_request (l : list (string * string)) : HttpRequest :=
  mkRequest "POST" ∅ (form_data l).

(** The comment of the spec's example, and the same without a body. *)
Definition comment_request : HttpRequest :=
  post_request [("name", "Ana"); ("email", "ana@x.com");
                ("body", "Nice post!")].
Definition comment_request_no_body : HttpRequest :=
  post_request [("name", "Ana"); ("email", "ana@x.com")].

(** A request with another method that carries a share form all the
    same. *)
Definition put_request : HttpRequest :=
  mkRequest "PUT" ∅
    (form_data [("name", "Ana"); ("email", "ana@x.com");
                ("to", "bo@y.org"); ("comments", "worth a look")]).

(** The key of the one draft of [world]. *)
Definition draft_id : Z := 3.

(** A share form whose sender name runs over two lines. *)
Definition share_request_line_feed : HttpRequest :=
  post_request [("name", "Ana" +:+ LF +:+ "Bo"); ("email", "ana@x.com");
                ("to", "bo@y.org"); ("comments", "worth a look")].

(** A share form, and the same with a recipient that is no address. *)
Definition share_request : HttpRequest :=
  post_request [("name", "Ana"); ("email", "ana@x.com");
                ("to", "bo@y.org"); ("comments", "worth a look")].
Definition share_request_bad_to : HttpRequest :=
  post_request [("name", "Ana"); ("email", "ana@x.com");
                ("to", "bo"); ("comments", "worth a look")].

End Sample.

(** ** The object store: lookups *)

Lemma get_object_or_404_none (P : Post -> Prop) `{!forall p, Decision (P p)} w :
  filter P (posts w) = [] ->
  get_object_or_404 P w = (Raise Http404, logged (SELECT "blog_post") w).
Proof.
  intros Hf. unfold get_object_or_404, bind, log_op. cbn. by rewrite Hf.
Qed.

Lemma get_object_or_404_one (P : Post -> Prop) `{!forall p, Decision (P p)} w p :
  filter P (posts w) = [p] ->
  get_object_or_404 P w = (Ok p, logged (SELECT "blog_post") w).
Proof.
  intros Hf. unfold get_object_or_404, bind, log_op. cbn. by rewrite Hf.
Qed.

Lemma get_object_or_404_many (P : Post -> Prop) `{!forall p, Decision (P p)}
    w p q l :
  filter P (posts w) = p :: q :: l ->
  get_object_or_404 P w
  = (Raise MultipleObjectsReturned, logged (SELECT "blog_post") w).
Proof.
  intros Hf. unfold get_object_or_404, bind, log_op. cbn. by rewrite Hf.
Qed.

(** A returned row satisfies the lookups and is a row of the table. *)
Lemma get_object_or_404_sound (P : Post -> Prop) `{!forall p, Decision (P p)}
    w p w' :
  get_object_or_404 P w = (Ok p, w') ->
  filter P (posts w) = [p] /\ P p /\ p ∈ posts w
  /\ w' = logged (SELECT "blog_post") w.
Proof.
  unfold get_object_or_404, bind, log_op. cbn.
  destruct (filter P (posts w)) as [|x [|y l]] eqn:Hf; intros Heq;
    inversion Heq; subst.
  assert (Hin : p ∈ filter P (posts w)) by (rewrite Hf; apply list_elem_of_here).
  apply list_elem_of_filter in Hin as [HP Hin]. done.
Qed.

(** No row carries a key that is not among the keys of the table. *)
Lemma filter_pk_absent (l : list Post) (k : Z) (Q : Post -> Prop)
    `{!forall p, Decision (Q p)} :
  k ∉ Post_id <$> l ->
  filter (fun p => Post_id p = k /\ Q p) l = [].
Proof.
  induction l as [|x l IH]; intros Hk; [done|].
  rewrite fmap_cons in Hk. apply not_elem_of_cons in Hk as [Hne Hk].
  rewrite filter_cons_False; [by apply IH|].
  intros [Heq _]. by apply Hne.
Qed.

(** With a unique primary key, the lookup by id finds the row. *)
Lemma filter_pk (l : list Post) (post : Post) (Q : Post -> Prop)
    `{!forall p, Decision (Q p)} :
  NoDup (Post_id <$> l) -> post ∈ l -> Q post ->
  filter (fun p => Post_id p = Post_id post /\ Q p) l = [post].
Proof.
  induction l as [|x l IH]; intros Hnd Hin HQ.
  - by apply elem_of_nil in Hin.
  - rewrite fmap_cons in Hnd. apply NoDup_cons in Hnd as [Hx Hnd].
    destruct (decide (x = post)) as [->|Hne].
    + rewrite filter_cons_True by done.
      by rewrite filter_pk_absent.
    + apply elem_of_cons in Hin as [->|Hin]; [done|].
      rewrite filter_cons_False; [by apply IH|].
      intros [Heq _]. apply Hx. rewrite Heq.
      by apply list_elem_of_fmap_2.
Qed.

Lemma published_post_lookup w post_id post :
  pk_unique w -> published_post w post_id post ->
  filter (fun p => Post_id p = post_id /\ Post_status p = PUBLISHED) (posts w)
  = [post].
Proof.
  intros Hnd (Hin & <- & Hst). by apply filter_pk.
Qed.

(** ** Forms: what [full_clean] leaves behind *)
Section FullClean.
Variable d : gmap string string.

Lemma clean_field_errors_mono acc nf n :
  is_Some (acc.1 !! n) -> is_Some ((clean_field d acc nf).1 !! n).
Proof.
  intros Hn. unfold clean_field.
  destruct (clean nf.2 (d !! nf.1)); cbn; [|done].
  destruct (decide (nf.1 = n)) as [->|Hne].
  - rewrite lookup_insert_eq. eauto.
  - by rewrite lookup_insert_ne.
Qed.

Lemma fold_errors_mono fields acc n :
  is_Some (acc.1 !! n) ->
  is_Some ((fold_left (clean_field d) fields acc).1 !! n).
Proof.
  revert acc. induction fields as [|nf fields IH]; intros acc Hn; [done|].
  cbn. apply IH. by apply clean_field_errors_mono.
Qed.

(** A rejected field leaves an entry in [errors]. *)
Lemma fold_rejected fields acc n f msgs :
  (n, f) ∈ fields -> clean f (d !! n) = inl msgs ->
  is_Some ((fold_left (clean_field d) fields acc).1 !! n).
Proof.
  revert acc. induction fields as [|nf fields IH]; intros acc Hin Hrej.
  - by apply elem_of_nil in Hin.
  - cbn. apply elem_of_cons in Hin as [<-|Hin]; [|by apply IH].
    apply fold_errors_mono. unfold clean_field. cbn. rewrite Hrej. cbn.
    rewrite lookup_insert_eq. eauto.
Qed.

(** Without errors at the end, every field accepted its value. *)
Lemma fold_accepted fields acc n f :
  (fold_left (clean_field d) fields acc).1 = ∅ ->
  (n, f) ∈ fields -> exists v, clean f (d !! n) = inr v.
Proof.
  intros Hnone Hin.
  destruct (clean f (d !! n)) as [msgs|v] eqn:Hc; [|eauto].
  destruct (fold_rejected fields acc n f msgs Hin Hc) as [e He].
  rewrite Hnone in He. by rewrite lookup_empty in He.
Qed.

(** A field leaves the entries of the other names alone. *)
Lemma clean_field_other acc nf n :
  nf.1 ≠ n -> (clean_field d acc nf).2 !! n = acc.2 !! n.
Proof.
  intros Hne. unfold clean_field.
  destruct (clean nf.2 (d !! nf.1)); cbn.
  - by rewrite lookup_delete_ne.
  - by rewrite lookup_insert_ne.
Qed.

Lemma fold_cleaned_other fields acc n :
  n ∉ fields.*1 ->
  (fold_left (clean_field d) fields acc).2 !! n = acc.2 !! n.
Proof.
  revert acc. induction fields as [|nf fields IH]; intros acc Hn; [done|].
  rewrite fmap_cons in Hn. apply not_elem_of_cons in Hn as [Hne Hn].
  cbn. rewrite IH by done. by apply clean_field_other.
Qed.

(** With distinct field names, the cleaned value of an accepted field is
    what [cleaned_data] holds under its name. *)
Lemma fold_cleaned fields acc n f v :
  NoDup fields.*1 -> (n, f) ∈ fields -> clean f (d !! n) = inr v ->
  (fold_left (clean_field d) fields acc).2 !! n = Some v.
Proof.
  revert acc. induction fields as [|nf fields IH]; intros acc Hnd Hin Hc.
  - by apply elem_of_nil in Hin.
  - rewrite fmap_cons in Hnd. apply NoDup_cons in Hnd as [Hnf Hnd].
    cbn. apply elem_of_cons in Hin as [<-|Hin]; [|by apply IH].
    cbn in Hnf. rewrite fold_cleaned_other by done.
    unfold clean_field. cbn. rewrite Hc. cbn. by rewrite lookup_insert_eq.
Qed.

End FullClean.

(** A valid form is bound, has no errors, and holds under each field name
    the value that field cleaned. *)
Lemma is_valid_cleaned fields d n f :
  NoDup fields.*1 -> (n, f) ∈ fields ->
  is_valid (Form_init fields (Some d)) = true ->
  exists v, clean f (d !! n) = inr v
            /\ cleaned_data (Form_init fields (Some d)) !! n = Some v.
Proof.
  intros Hnd Hin Hv. unfold is_valid in Hv. cbn in Hv.
  apply bool_decide_eq_true in Hv.
  destruct (fold_accepted d fields (∅, ∅) n f Hv Hin) as [v Hc].
  exists v. split; [done|]. cbn. by eapply fold_cleaned.
Qed.

(** A bound form that is not valid carries errors. *)
Lemma not_valid_errors fields d :
  is_valid (Form_init fields (Some d)) = false ->
  is_bound (Form_init fields (Some d)) = true
  /\ errors (Form_init fields (Some d)) ≠ ∅.
Proof.
  unfold is_valid. cbn. intros Hv. split; [done|].
  by apply bool_decide_eq_false in Hv.
Qed.

(** A form with a rejected field is not valid, and names the field among
    its errors. *)
Lemma rejected_not_valid fields d n f msgs :
  (n, f) ∈ fields -> clean f (d !! n) = inl msgs ->
  is_valid (Form_init fields (Some d)) = false
  /\ is_Some (errors (Form_init fields (Some d)) !! n).
Proof.
  intros Hin Hc.
  pose proof (fold_rejected d fields (∅, ∅) n f msgs Hin Hc) as Hs.
  split; [|done].
  unfold is_valid. cbn. apply bool_decide_eq_false. intros He.
  unfold full_clean in He. rewrite He in Hs.
  destruct Hs as [e Hs]. by rewrite lookup_empty in Hs.
Qed.

(** The key the store hands out is above every key in use. *)
Lemma next_pk_fresh (cs : list Comment) (c : Comment) (k : Z) :
  c ∈ cs -> Comment_pk c = Some k -> k < next_pk cs.
Proof.
  unfold next_pk. induction cs as [|x cs IH]; intros Hin Hk.
  - by apply elem_of_nil in Hin.
  - apply elem_of_cons in Hin as [<-|Hin].
    + cbn. rewrite Hk. cbn. lia.
    + specialize (IH Hin Hk). cbn. destruct (Comment_pk x); cbn; lia.
Qed.

(** ** The handlers *)
Section Handlers.
Context `{BlogApp}.

Lemma CommentForm_fields_NoDup :
  NoDup ([("name", CommentForm_name); ("email", CommentForm_email);
          ("body", CommentForm_body)].*1).
Proof. cbn. apply (bool_decide_unpack _). by vm_compute. Qed.

Lemma EmailPostForm_fields_NoDup :
  NoDup ([("name", EmailPostForm_name); ("email", EmailPostForm_email);
          ("to", EmailPostForm_to); ("comments", EmailPostForm_comments)].*1).
Proof. cbn. apply (bool_decide_unpack _). by vm_compute. Qed.

Lemma require_POST_allowed {A} (view : HttpRequest -> A -> M HttpResponse)
    request args :
  method request = "POST" ->
  require_POST view request args = view request args.
Proof.
  intros Hm. unfold require_POST. rewrite Hm.
  rewrite bool_decide_eq_true_2; [done|]. apply list_elem_of_here.
Qed.

Lemma require_POST_rejected {A} (view : HttpRequest -> A -> M HttpResponse)
    request args :
  method request ≠ "POST" ->
  require_POST view request args = ret (HttpResponseNotAllowed ["POST"]).
Proof.
  intros Hm. unfold require_POST.
  rewrite bool_decide_eq_false_2; [done|].
  intros Hin. apply list_elem_of_singleton in Hin. done.
Qed.

(** C1: a POST to [post_comment] on a published post with fields that pass
    validation persists exactly one new comment (the table grows by that one
    row, under a key no stored comment has), the comment belongs to the
    looked-up post and carries the cleaned name, email and body, and it is
    the ['comment'] value of the context of the rendered response. *)
Theorem post_comment_valid_persists request post_id w post :
  method request = "POST" ->
  pk_unique w ->
  published_post w post_id post ->
  is_valid (CommentForm (Some (POST request))) = true ->
  exists comment context w',
    post_comment request post_id w
    = (Ok (TemplateResponse "blog/post/comment.html" context), w')
    /\ comments w' = comments w ++ [comment]
    /\ posts w' = posts w
    /\ Comment_post comment = Some (Post_id post)
    /\ Post_id post = post_id
    /\ Comment_active comment = true
    /\ clean CommentForm_name (POST request !! "name")
       = inr (Comment_name comment)
    /\ clean CommentForm_email (POST request !! "email")
       = inr (Comment_email comment)
    /\ clean CommentForm_body (POST request !! "body")
       = inr (Comment_body comment)
    /\ (forall c, c ∈ comments w -> Comment_pk c ≠ Comment_pk comment)
    /\ context !! "comment" = Some (VComment comment)
    /\ context !! "post" = Some (VPost post).
Proof.
  intros Hm Hpk Hpost Hv.
  pose proof (published_post_lookup w post_id post Hpk Hpost) as Hf.
  destruct Hpost as (_ & Hid & _).
  unfold post_comment. rewrite require_POST_allowed by done.
  unfold post_comment_view, bind.
  rewrite (get_object_or_404_one _ _ post Hf). rewrite Hv.
  unfold ModelForm_save_no_commit.
  pose proof Hv as Hv'. unfold is_valid in Hv'.
  apply andb_true_iff in Hv' as [_ He]. rewrite He.
  destruct (is_valid_cleaned _ _ "name" CommentForm_name
              CommentForm_fields_NoDup ltac:(set_solver) Hv) as (vn & Hcn & Hln).
  destruct (is_valid_cleaned _ _ "email" CommentForm_email
              CommentForm_fields_NoDup ltac:(set_solver) Hv) as (ve & Hce & Hle).
  destruct (is_valid_cleaned _ _ "body" CommentForm_body
              CommentForm_fields_NoDup ltac:(set_solver) Hv) as (vb & Hcb & Hlb).
  unfold construct_instance, CommentForm in *. rewrite Hln, Hle, Hlb.
  eexists _, _, _. split; [reflexivity|].
  cbn.
  repeat split; try done.
  intros c Hc Heq. 
  destruct (Comment_pk c) as [k|] eqn:Hk; [|done].
  pose proof (next_pk_fresh _ _ _ Hc Hk). injection Heq as ->. lia.
Qed.

(** C2, as the code has it: a POST to [post_share] on a published post
    with fields that pass validation hands exactly one message to the mail
    facility, addressed to the one-element list made of the cleaned [to]
    field.  Where the mail facility takes the message, the context of the
    rendered response has [sent] set; where it raises (a line break in the
    subject, a failure of the transport), the exception leaves the view and
    no response is rendered. *)
Theorem post_share_valid_sends_once request post_id w post :
  method request = "POST" ->
  pk_unique w ->
  published_post w post_id post ->
  is_valid (EmailPostForm (Some (POST request))) = true ->
  exists to mail,
    clean EmailPostForm_to (POST request !! "to") = inr to
    /\ outbox (post_share request post_id w).2 = outbox w ++ [mail]
    /\ recipient_list mail = [to]
    /\ (mail_fault mail = None ->
        exists context,
          (post_share request post_id w).1
          = Ok (TemplateResponse "blog/post/share.html" context)
          /\ context !! "sent" = Some (VBool true)
          /\ context !! "post" = Some (VPost post))
    /\ (forall e, mail_fault mail = Some e ->
                  (post_share request post_id w).1 = Raise e).
Proof.
  intros Hm Hpk Hpost Hv.
  pose proof (published_post_lookup w post_id post Hpk Hpost) as Hf.
  unfold post_share, bind.
  rewrite (get_object_or_404_one _ _ post Hf).
  rewrite Hm, bool_decide_eq_true_2 by done. rewrite Hv.
  destruct (is_valid_cleaned _ _ "name" EmailPostForm_name
              EmailPostForm_fields_NoDup ltac:(set_solver) Hv) as (vn & _ & Hln).
  destruct (is_valid_cleaned _ _ "email" EmailPostForm_email
              EmailPostForm_fields_NoDup ltac:(set_solver) Hv) as (ve & _ & Hle).
  destruct (is_valid_cleaned _ _ "to" EmailPostForm_to
              EmailPostForm_fields_NoDup ltac:(set_solver) Hv) as (vt & Hct & Hlt).
  destruct (is_valid_cleaned _ _ "comments" EmailPostForm_comments
              EmailPostForm_fields_NoDup ltac:(set_solver) Hv) as (vc & _ & Hlc).
  unfold dict_get, EmailPostForm in *. rewrite Hln, Hle, Hlt, Hlc.
  unfold send_mail, ret. cbn -[mail_fault].
  set (m := mkEmail _ _ None [vt]).
  exists vt, m. split; [done|].
  destruct (mail_fault m) as [e|] eqn:Hfault; cbn.
  - split; [done|]. split; [done|]. split; [done|].
    intros e' He'. by injection He' as ->.
  - split; [done|]. split; [done|]. split; [|done].
    intros _. eexists. split; [reflexivity|]. done.
Qed.

(** C3: a POST to [post_share] on a published post whose form fails
    validation hands nothing to the mail facility; the context of the
    rendered response has [sent] unset and holds the bound form with its
    errors, the rejected [to] field among them when that is the field at
    fault. *)
Theorem post_share_invalid_sends_nothing request post_id w post :
  method request = "POST" ->
  pk_unique w ->
  published_post w post_id post ->
  is_valid (EmailPostForm (Some (POST request))) = false ->
  exists context w',
    post_share request post_id w
    = (Ok (TemplateResponse "blog/post/share.html" context), w')
    /\ outbox w' = outbox w
    /\ context !! "sent" = Some (VBool false)
    /\ context !! "form" = Some (VForm (EmailPostForm (Some (POST request))))
    /\ is_bound (EmailPostForm (Some (POST request))) = true
    /\ data (EmailPostForm (Some (POST request))) = POST request
    /\ errors (EmailPostForm (Some (POST request))) ≠ ∅
    /\ (forall msgs,
          clean EmailPostForm_to (POST request !! "to") = inl msgs ->
          is_Some (errors (EmailPostForm (Some (POST request))) !! "to")).
Proof.
  intros Hm Hpk Hpost Hv.
  pose proof (published_post_lookup w post_id post Hpk Hpost) as Hf.
  unfold post_share, bind.
  rewrite (get_object_or_404_one _ _ post Hf).
  rewrite Hm, bool_decide_eq_true_2 by done. rewrite Hv.
  eexists _, _. split; [reflexivity|].
  destruct (not_valid_errors _ _ Hv) as [Hb He].
  repeat split; try done.
  intros msgs Hc. eapply rejected_not_valid; [|exact Hc]. set_solver.
Qed.

(** A rejected [to] field is one way for the share form to fail. *)
Lemma EmailPostForm_to_rejected d msgs :
  clean EmailPostForm_to (d !! "to") = inl msgs ->
  is_valid (EmailPostForm (Some d)) = false
  /\ is_Some (errors (EmailPostForm (Some d)) !! "to").
Proof.
  intros Hc. eapply rejected_not_valid; [|exact Hc]. set_solver.
Qed.

(** C4: a POST to [post_comment] on a published post whose form fails
    validation persists nothing (both tables and the outbox are as before,
    and the store saw the one lookup of the post only); the ['comment']
    value of the context is None and the bound form with its errors is
    returned, the rejected [body] field among them when that is the field
    at fault. *)
Theorem post_comment_invalid_persists_nothing request post_id w post :
  method request = "POST" ->
  pk_unique w ->
  published_post w post_id post ->
  is_valid (CommentForm (Some (POST request))) = false ->
  exists context w',
    post_comment request post_id w
    = (Ok (TemplateResponse "blog/post/comment.html" context), w')
    /\ comments w' = comments w
    /\ w' = logged (SELECT "blog_post") w
    /\ context !! "comment" = Some VNone
    /\ context !! "form" = Some (VForm (CommentForm (Some (POST request))))
    /\ is_bound (CommentForm (Some (POST request))) = true
    /\ errors (CommentForm (Some (POST request))) ≠ ∅
    /\ (forall msgs,
          clean CommentForm_body (POST request !! "body") = inl msgs ->
          is_Some (errors (CommentForm (Some (POST request))) !! "body")).
Proof.
  intros Hm Hpk Hpost Hv.
  pose proof (published_post_lookup w post_id post Hpk Hpost) as Hf.
  unfold post_comment. rewrite require_POST_allowed by done.
  unfold post_comment_view, bind.
  rewrite (get_object_or_404_one _ _ post Hf). rewrite Hv.
  eexists _, _. split; [reflexivity|].
  destruct (not_valid_errors _ _ Hv) as [Hb He].
  repeat split; try done.
  intros msgs Hc. eapply rejected_not_valid; [|exact Hc]. set_solver.
Qed.

(** A rejected [body] field (a missing one, where the field requires a
    value) is one way for the comment form to fail. *)
Lemma CommentForm_body_rejected d msgs :
  clean CommentForm_body (d !! "body") = inl msgs ->
  is_valid (CommentForm (Some d)) = false
  /\ is_Some (errors (CommentForm (Some d)) !! "body").
Proof.
  intros Hc. eapply rejected_not_valid; [|exact Hc]. set_solver.
Qed.

(** C9: a GET to [post_share] on a published post renders an unbound form
    without errors and [sent] unset, and hands nothing to the mail
    facility. *)
Theorem post_share_get_empty_form request post_id w post :
  method request = "GET" ->
  pk_unique w ->
  published_post w post_id post ->
  exists form context w',
    post_share request post_id w
    = (Ok (TemplateResponse "blog/post/share.html" context), w')
    /\ context !! "form" = Some (VForm form)
    /\ is_bound form = false
    /\ data form = ∅
    /\ errors form = ∅
    /\ context !! "sent" = Some (VBool false)
    /\ context !! "post" = Some (VPost post)
    /\ outbox w' = outbox w.
Proof.
  intros Hm Hpk Hpost.
  pose proof (published_post_lookup w post_id post Hpk Hpost) as Hf.
  unfold post_share, bind.
  rewrite (get_object_or_404_one _ _ post Hf).
  rewrite Hm, bool_decide_eq_false_2 by done.
  eexists _, _, _. split; [reflexivity|].
  repeat split; done.
Qed.

(** C8: a request to [post_comment] with a method other than POST (GET, for
    one) is answered with the not-allowed response for the list [POST], and
    the comment table is as before. *)
Theorem post_comment_not_POST_rejected request post_id w :
  method request ≠ "POST" ->
  (post_comment request post_id w).1 = Ok (HttpResponseNotAllowed ["POST"])
  /\ comments (post_comment request post_id w).2 = comments w.
Proof.
  intros Hm. unfold post_comment. by rewrite require_POST_rejected.
Qed.

(** C10: on a method other than POST the rejection comes before the lookup
    of the post.  The world is left as it was, so the store was not read;
    the answer is the one the decorator gives for any view under it, so the
    body (lookup, form binding) did not run; and where no published post has
    the id, the body alone would raise Http404 while the decorated view
    still answers not-allowed. *)
Theorem post_comment_method_check_precedes_lookup request post_id w :
  method request ≠ "POST" ->
  post_comment request post_id w = (Ok (HttpResponseNotAllowed ["POST"]), w)
  /\ db_log (post_comment request post_id w).2 = db_log w
  /\ (forall view : HttpRequest -> Z -> M HttpResponse,
        require_POST view request post_id w
        = post_comment request post_id w)
  /\ ((forall p, p ∈ posts w ->
         ~ (Post_id p = post_id /\ Post_status p = PUBLISHED)) ->
      (post_comment_view request post_id w).1 = Raise Http404
      /\ (post_comment request post_id w).1 ≠ Raise Http404).
Proof.
  intros Hm. unfold post_comment.
  rewrite require_POST_rejected by done.
  split; [done|]. split; [done|]. split.
  - intros view. by rewrite require_POST_rejected.
  - intros Hno. split; [|done].
    unfold post_comment_view, bind.
    rewrite get_object_or_404_none; [done|].
    destruct (filter _ (posts w)) as [|x l] eqn:Hf; [done|].
    assert (Hx : x ∈ filter (fun p => Post_id p = post_id
                                      /\ Post_status p = PUBLISHED) (posts w))
      by (rewrite Hf; apply list_elem_of_here).
    apply list_elem_of_filter in Hx as [HP Hin]. by destruct (Hno x Hin).
Qed.

(** The year of a stored post passes the bounds of the year lookup. *)
Lemma published_on_year_range year month day slug p :
  published_on year month day slug p -> 1 <= year <= 9999.
Proof.
  intros (_ & _ & <- & _). apply (bool_decide_unpack _).
  apply (dt_year_range (Post_publish p)).
Qed.

Lemma year_lookup_bounds_passes year w :
  1 <= year <= 9999 -> year_lookup_bounds year w = (Ok tt, w).
Proof.
  intros Hy. unfold year_lookup_bounds. by rewrite bool_decide_eq_true_2.
Qed.

Lemma year_lookup_bounds_raises year w :
  ~ (1 <= year <= 9999) -> year_lookup_bounds year w = (Raise ValueError, w).
Proof.
  intros Hy. unfold year_lookup_bounds. by rewrite bool_decide_eq_false_2.
Qed.

(** A year Python has no date for makes [post_detail] raise ValueError
    before the store is read. *)
Lemma post_detail_year_out_of_range request year month day slug w :
  ~ (1 <= year <= 9999) ->
  post_detail request year month day slug w = (Raise ValueError, w).
Proof.
  intros Hy. unfold post_detail, bind.
  by rewrite year_lookup_bounds_raises.
Qed.


(** Where slug and day single out one published post, [post_detail] renders
    its page. *)
Lemma post_detail_found request year month day slug w post :
  filter (published_on year month day slug) (posts w) = [post] ->
  post_detail request year month day slug w
  = (Ok (TemplateResponse "blog/post/detail.html"
           (<["post" := VPost post]>
              (<["comments" :=
                   VComments
                     (filter (fun c => Comment_post c = Some (Post_id post)
                                       /\ Comment_active c = true)
                        (comments w))]>
                 (<["form" := VForm (CommentForm None)]> ∅)))),
     logged (SELECT "blog_comment") (logged (SELECT "blog_post") w)).
Proof.
  intros Hf.
  assert (Hy : 1 <= year <= 9999).
  { apply (published_on_year_range year month day slug post).
    assert (Hin : post ∈ filter (published_on year month day slug) (posts w))
      by (rewrite Hf; apply list_elem_of_here).
    by apply list_elem_of_filter in Hin as [HP _]. }
  unfold post_detail, bind. rewrite year_lookup_bounds_passes by done.
  unfold get_object_or_404, bind, log_op, Post_comments_filter_active,
    published_on in *. cbn. by rewrite Hf.
Qed.



(** C6: in the context of a rendered [post_detail] page, ['comments'] is
    the list of the active comments of the post of the page, in stored
    order: every listed comment is active, and no inactive comment of the
    post is listed. *)
Theorem post_detail_comments_active request year month day slug w
    template context w' :
  post_detail request year month day slug w
  = (Ok (TemplateResponse template context), w') ->
  exists post cs,
    context !! "post" = Some (VPost post)
    /\ context !! "comments" = Some (VComments cs)
    /\ Forall (fun c => Comment_active c = true) cs
    /\ (forall c, c ∈ comments w -> Comment_post c = Some (Post_id post) ->
                  Comment_active c = false -> c ∉ cs)
    /\ cs = filter (fun c => Comment_post c = Some (Post_id post)
                             /\ Comment_active c = true) (comments w).
Proof.
  unfold post_detail, bind, year_lookup_bounds, get_object_or_404, bind,
    log_op, Post_comments_filter_active.
  case_bool_decide; cbn; [|done].
  destruct (filter _ (posts w)) as [|p [|q l]]; cbn; intros Heq;
    inversion Heq; subst; clear Heq.
  eexists p, _. split; [done|]. split; [done|]. split; [|split; [|done]].
  - apply Forall_forall. intros c Hc.
    by apply list_elem_of_filter in Hc as [[_ Ha] _].
  - intros c _ _ Hina Hc.
    apply list_elem_of_filter in Hc as [[_ Ha] _]. congruence.
Qed.

End Handlers.

(** ** Pagination *)

Lemma ceil_div_bounds (a b : Z) :
  0 < b -> b * (ceil_div a b - 1) < a <= b * ceil_div a b.
Proof.
  intros Hb. unfold ceil_div.
  pose proof (Z.mul_div_le (- a) b Hb).
  pose proof (Z.mul_succ_div_gt (- a) b Hb). nia.
Qed.

(** The slice a page takes is the next [per_page] rows from its first
    row. *)
Lemma slice_page {A} (l : list A) (bottom k : Z) :
  0 <= bottom -> 0 < k ->
  slice l bottom
    (if bool_decide (bottom + k + 0 >= Z.of_nat (length l))
     then Z.of_nat (length l) else bottom + k)
  = take (Z.to_nat k) (drop (Z.to_nat bottom) l).
Proof.
  intros Hb Hk. unfold slice. case_bool_decide as Hge.
  - rewrite !take_ge; [done| |]; rewrite length_drop; lia.
  - f_equal. lia.
Qed.

Section PaginatorFacts.
Context {A : Type} (l : list A) (k : Z).
Hypothesis k_pos : 0 < k.

Let pr := mkPaginator l k 0 true.

Lemma num_pages_eq : num_pages pr = ceil_div (Z.max 1 (count pr)) k.
Proof.
  unfold num_pages. cbn. rewrite andb_false_r. by rewrite Z.sub_0_r.
Qed.

Lemma num_pages_bounds :
  k * (num_pages pr - 1) < Z.max 1 (count pr) <= k * num_pages pr.
Proof. rewrite num_pages_eq. by apply ceil_div_bounds. Qed.

Lemma num_pages_pos : 1 <= num_pages pr.
Proof. pose proof num_pages_bounds. nia. Qed.

Lemma Paginator_page_in_range n w :
  1 <= n <= num_pages pr ->
  Paginator_page pr n w
  = (Ok (mkPage (take (Z.to_nat k) (drop (Z.to_nat ((n - 1) * k)) l)) n pr), w).
Proof.
  intros Hn. unfold Paginator_page, validate_number, bind.
  rewrite bool_decide_eq_false_2 by lia.
  rewrite bool_decide_eq_false_2 by lia.
  cbn. unfold ret. do 3 f_equal.
  apply slice_page; [nia|done].
Qed.

Lemma Paginator_page_out_of_range n w :
  n < 1 \/ num_pages pr < n ->
  Paginator_page pr n w = (Raise EmptyPage, w).
Proof.
  intros Hn. unfold Paginator_page, validate_number, bind.
  case_bool_decide; [done|].
  rewrite bool_decide_eq_true_2 by lia. done.
Qed.

(** Every page before the last is full; the last page holds at least one
    row unless the sequence is empty, and no page holds more than
    [per_page] rows. *)
Lemma page_length n :
  1 <= n <= num_pages pr ->
  let page := take (Z.to_nat k) (drop (Z.to_nat ((n - 1) * k)) l) in
  (n < num_pages pr -> Z.of_nat (length page) = k)
  /\ Z.of_nat (length page) <= k
  /\ (l ≠ [] -> 1 <= Z.of_nat (length page)).
Proof.
  intros Hn page. subst page.
  pose proof num_pages_bounds as Hb. unfold count in Hb. cbn in Hb.
  rewrite length_take, length_drop.
  split; [|split].
  - intros Hlt. nia.
  - lia.
  - intros Hne. assert (0 < length l)%nat by (destruct l; [done|cbn; lia]).
    nia.
Qed.

End PaginatorFacts.

Section ListView.
Context `{BlogApp}.

(** What [PostListView] answers once the page number is known. *)
Lemma PostListView_page request w s n :
  GET request !! "page" = Some s -> s ≠ "" -> int s = Some n ->
  (1 <= n <= last_page w ->
   exists context w',
     PostListView request w
     = (Ok (TemplateResponse "blog/post/list.html" context), w')
     /\ context !! "posts" = Some (VPosts (page_rows w n)))
  /\ (n < 1 \/ last_page w < n ->
      (PostListView request w).1 = Raise Http404).
Proof.
  intros Hs Hne Hint. unfold PostListView, bind, Post_published_all, log_op.
  cbn. unfold paginate_queryset, bind. rewrite Hs.
  destruct s as [|a s]; [done|]. rewrite Hint. cbn.
  fold (published w). unfold invalid_page_to_404. split.
  - intros Hn. unfold last_page in Hn.
    rewrite (Paginator_page_in_range _ paginate_by) by done.
    cbn. by eexists _, _.
  - intros Hn. unfold last_page in Hn.
    by rewrite (Paginator_page_out_of_range _ paginate_by).
Qed.

(** C7: [PostListView] paginates the published posts by 3.  Page [n] within
    range is rendered with rows [3(n-1)+1 .. 3n] of the published posts;
    every page before the last holds exactly 3 rows, the last holds at most
    3 (and at least one unless there is no published post at all); the last
    page is the one that reaches the end of the list; and a page number
    beyond the last raises Http404. *)
Theorem PostListView_paginates_by_3 request w s n :
  GET request !! "page" = Some s -> s ≠ "" -> int s = Some n ->
  (1 <= n <= last_page w ->
   exists context w',
     PostListView request w
     = (Ok (TemplateResponse "blog/post/list.html" context), w')
     /\ context !! "posts" = Some (VPosts (page_rows w n))
     /\ Forall (fun p => Post_status p = PUBLISHED /\ p ∈ posts w)
          (page_rows w n)
     /\ (n < last_page w -> length (page_rows w n) = 3%nat)
     /\ (length (page_rows w n) <= 3)%nat
     /\ (published w ≠ [] -> (1 <= length (page_rows w n))%nat))
  /\ 3 * (last_page w - 1) < Z.max 1 (Z.of_nat (length (published w)))
     <= 3 * last_page w
  /\ (last_page w < n -> (PostListView request w).1 = Raise Http404).
Proof.
  intros Hs Hne Hint.
  destruct (PostListView_page request w s n Hs Hne Hint) as [Hin Hout].
  split; [|split].
  - intros Hn. destruct (Hin Hn) as (context & w' & Hr & Hctx).
    exists context, w'. split; [done|]. split; [done|].
    destruct (page_length (published w) 3 ltac:(lia) n Hn) as (Hfull & Hle & Hge).
    split; [|split; [|split]].
    + apply Forall_forall. intros p Hp. unfold page_rows in Hp.
      apply subseteq_take, subseteq_drop in Hp.
      unfold published in Hp. by apply list_elem_of_filter in Hp.
    + intros Hlt. specialize (Hfull Hlt). unfold page_rows.
      change (Z.to_nat 3) with 3%nat in Hfull. lia.
    + unfold page_rows. change (Z.to_nat 3) with 3%nat in Hle. lia.
    + intros Hnil. specialize (Hge Hnil). unfold page_rows.
      change (Z.to_nat 3) with 3%nat in Hge. lia.
  - apply (num_pages_bounds (published w) 3). lia.
  - intros Hn. apply Hout. by right.
Qed.

End ListView.

(** ** The statements on the sample application *)
Section OnSample.
#[local] Existing Instance Sample.app.

(** Closes a decidable statement about concrete data by evaluation. *)
Ltac by_evaluation := apply (bool_decide_unpack _); vm_compute; reflexivity.

Lemma post_comment_valid_persists_witness :
  exists comment context w',
    post_comment Sample.comment_request 5 Sample.world
    = (Ok (TemplateResponse "blog/post/comment.html" context), w')
    /\ comments w' = comments Sample.world ++ [comment]
    /\ posts w' = posts Sample.world
    /\ Comment_post comment = Some (Post_id Sample.p5)
    /\ Post_id Sample.p5 = 5
    /\ Comment_active comment = true
    /\ clean CommentForm_name (POST Sample.comment_request !! "name")
       = inr (Comment_name comment)
    /\ clean CommentForm_email (POST Sample.comment_request !! "email")
       = inr (Comment_email comment)
    /\ clean CommentForm_body (POST Sample.comment_request !! "body")
       = inr (Comment_body comment)
    /\ (forall c, c ∈ comments Sample.world ->
                  Comment_pk c ≠ Comment_pk comment)
    /\ context !! "comment" = Some (VComment comment)
    /\ context !! "post" = Some (VPost Sample.p5).
Proof.
  apply (post_comment_valid_persists Sample.comment_request 5 Sample.world
           Sample.p5).
  - reflexivity.
  - unfold pk_unique. by_evaluation.
  - unfold published_post. by_evaluation.
  - vm_compute. reflexivity.
Defined.

Lemma post_share_valid_sends_once_witness :
  exists to mail,
    clean EmailPostForm_to (POST Sample.share_request !! "to") = inr to
    /\ outbox (post_share Sample.share_request 2 Sample.world).2
       = outbox Sample.world ++ [mail]
    /\ recipient_list mail = [to]
    /\ (mail_fault mail = None ->
        exists context,
          (post_share Sample.share_request 2 Sample.world).1
          = Ok (TemplateResponse "blog/post/share.html" context)
          /\ context !! "sent" = Some (VBool true)
          /\ context !! "post" = Some (VPost Sample.p2))
    /\ (forall e, mail_fault mail = Some e ->
                  (post_share Sample.share_request 2 Sample.world).1
                  = Raise e).
Proof.
  apply (post_share_valid_sends_once Sample.share_request 2 Sample.world
           Sample.p2).
  - reflexivity.
  - unfold pk_unique. by_evaluation.
  - unfold published_post. by_evaluation.
  - vm_compute. reflexivity.
Defined.

(** C2, as stated, fails where the sender's name carries a line feed: the
    form is valid and the post is published, one message is handed to the
    mail facility, and the view ends in BadHeaderError without a response,
    so no context has [sent] set. *)
Lemma post_share_line_feed_counterexample :
  method Sample.share_request_line_feed = "POST"
  /\ published_post Sample.world 2 Sample.p2
  /\ is_valid (EmailPostForm (Some (POST Sample.share_request_line_feed)))
     = true
  /\ (post_share Sample.share_request_line_feed 2 Sample.world).1
     = Raise BadHeaderError
  /\ ~ rendered (post_share Sample.share_request_line_feed 2 Sample.world)
  /\ length (outbox (post_share Sample.share_request_line_feed 2
                       Sample.world).2) = 1%nat.
Proof.
  split; [reflexivity|]. split; [unfold published_post; by_evaluation|].
  split; [vm_compute; reflexivity|]. split; [vm_compute; reflexivity|].
  split; [|vm_compute; reflexivity].
  intros (t & c & Hr). vm_compute in Hr. discriminate.
Qed.

Lemma post_share_invalid_sends_nothing_witness :
  exists context w',
    post_share Sample.share_request_bad_to 2 Sample.world
    = (Ok (TemplateResponse "blog/post/share.html" context), w')
    /\ outbox w' = outbox Sample.world
    /\ context !! "sent" = Some (VBool false)
    /\ context !! "form"
       = Some (VForm (EmailPostForm (Some (POST Sample.share_request_bad_to))))
    /\ is_bound (EmailPostForm (Some (POST Sample.share_request_bad_to)))
       = true
    /\ data (EmailPostForm (Some (POST Sample.share_request_bad_to)))
       = POST Sample.share_request_bad_to
    /\ errors (EmailPostForm (Some (POST Sample.share_request_bad_to))) ≠ ∅
    /\ (forall msgs,
          clean EmailPostForm_to (POST Sample.share_request_bad_to !! "to")
          = inl msgs ->
          is_Some (errors (EmailPostForm
                             (Some (POST Sample.share_request_bad_to)))
                     !! "to")).
Proof.
  apply (post_share_invalid_sends_nothing Sample.share_request_bad_to 2
           Sample.world Sample.p2).
  - reflexivity.
  - unfold pk_unique. by_evaluation.
  - unfold published_post. by_evaluation.
  - vm_compute. reflexivity.
Defined.

Lemma post_comment_invalid_persists_nothing_witness :
  exists context w',
    post_comment Sample.comment_request_no_body 5 Sample.world
    = (Ok (TemplateResponse "blog/post/comment.html" context), w')
    /\ comments w' = comments Sample.world
    /\ w' = logged (SELECT "blog_post") Sample.world
    /\ context !! "comment" = Some VNone
    /\ context !! "form"
       = Some (VForm (CommentForm (Some (POST Sample.comment_request_no_body))))
    /\ is_bound (CommentForm (Some (POST Sample.comment_request_no_body)))
       = true
    /\ errors (CommentForm (Some (POST Sample.comment_request_no_body))) ≠ ∅
    /\ (forall msgs,
          clean CommentForm_body (POST Sample.comment_request_no_body !! "body")
          = inl msgs ->
          is_Some (errors (CommentForm
                             (Some (POST Sample.comment_request_no_body)))
                     !! "body")).
Proof.
  apply (post_comment_invalid_persists_nothing Sample.comment_request_no_body 5
           Sample.world Sample.p5).
  - reflexivity.
  - unfold pk_unique. by_evaluation.
  - unfold published_post. by_evaluation.
  - vm_compute. reflexivity.
Defined.

Lemma post_share_get_empty_form_witness :
  exists form context w',
    post_share Sample.get_request 2 Sample.world
    = (Ok (TemplateResponse "blog/post/share.html" context), w')
    /\ context !! "form" = Some (VForm form)
    /\ is_bound form = false
    /\ data form = ∅
    /\ errors form = ∅
    /\ context !! "sent" = Some (VBool false)
    /\ context !! "post" = Some (VPost Sample.p2)
    /\ outbox w' = outbox Sample.world.
Proof.
  apply (post_share_get_empty_form Sample.get_request 2 Sample.world Sample.p2).
  - reflexivity.
  - unfold pk_unique. by_evaluation.
  - unfold published_post. by_evaluation.
Defined.

Lemma post_comment_not_POST_rejected_witness :
  (post_comment Sample.get_request 5 Sample.world).1
  = Ok (HttpResponseNotAllowed ["POST"])
  /\ comments (post_comment Sample.get_request 5 Sample.world).2
     = comments Sample.world.
Proof.
  apply (post_comment_not_POST_rejected Sample.get_request 5 Sample.world).
  vm_compute. discriminate.
Defined.

(** No published post of the sample store has the id 99. *)
Lemma no_post_99 :
  forall p, p ∈ posts Sample.world ->
            ~ (Post_id p = 99 /\ Post_status p = PUBLISHED).
Proof.
  intros p Hin [Hid _]. revert Hid.
  apply (Forall_forall (fun p => Post_id p ≠ 99) (posts Sample.world));
    [|done].
  by_evaluation.
Qed.

Lemma post_comment_method_check_precedes_lookup_witness :
  post_comment Sample.get_request 99 Sample.world
  = (Ok (HttpResponseNotAllowed ["POST"]), Sample.world)
  /\ (post_comment_view Sample.get_request 99 Sample.world).1
     = Raise Http404.
Proof.
  destruct (post_comment_method_check_precedes_lookup Sample.get_request 99
              Sample.world) as (Hanswer & _ & _ & Hbody).
  - vm_compute. discriminate.
  - split; [exact Hanswer|]. exact (proj1 (Hbody no_post_99)).
Defined.

Lemma post_detail_comments_active_witness :
  exists post cs,
    context_of (post_detail Sample.get_request 2024 1 5 "first" Sample.world)
      !! "post" = Some (VPost post)
    /\ context_of (post_detail Sample.get_request 2024 1 5 "first" Sample.world)
         !! "comments" = Some (VComments cs)
    /\ Forall (fun c => Comment_active c = true) cs
    /\ (forall c, c ∈ comments Sample.world ->
                  Comment_post c = Some (Post_id post) ->
                  Comment_active c = false -> c ∉ cs)
    /\ cs = filter (fun c => Comment_post c = Some (Post_id post)
                             /\ Comment_active c = true)
              (comments Sample.world).
Proof.
  apply (post_detail_comments_active Sample.get_request 2024 1 5 "first"
           Sample.world "blog/post/detail.html"
           (context_of (post_detail Sample.get_request 2024 1 5 "first"
                          Sample.world))
           (post_detail Sample.get_request 2024 1 5 "first" Sample.world).2).
  vm_compute. reflexivity.
Defined.

Lemma PostListView_paginates_by_3_witness :
  (1 <= 2 <= last_page Sample.world ->
   exists context w',
     PostListView (Sample.page_request "2") Sample.world
     = (Ok (TemplateResponse "blog/post/list.html" context), w')
     /\ context !! "posts" = Some (VPosts (page_rows Sample.world 2))
     /\ Forall (fun p => Post_status p = PUBLISHED /\ p ∈ posts Sample.world)
          (page_rows Sample.world 2)
     /\ (2 < last_page Sample.world ->
         length (page_rows Sample.world 2) = 3%nat)
     /\ (length (page_rows Sample.world 2) <= 3)%nat
     /\ (published Sample.world ≠ [] ->
         (1 <= length (page_rows Sample.world 2))%nat))
  /\ 3 * (last_page Sample.world - 1)
     < Z.max 1 (Z.of_nat (length (published Sample.world)))
     <= 3 * last_page Sample.world
  /\ (last_page Sample.world < 2 ->
      (PostListView (Sample.page_request "2") Sample.world).1 = Raise Http404).
Proof.
  apply (PostListView_paginates_by_3 (Sample.page_request "2") Sample.world
           "2" 2).
  - vm_compute. reflexivity.
  - discriminate.
  - vm_compute. reflexivity.
Defined.




(** Where two published posts share the slug and the day, against the
    uniqueness of slugs, the lookup raises MultipleObjectsReturned. *)
Lemma post_detail_shared_slug_raises :
  ~ slug_unique_for_date Sample.world_dup
  /\ (post_detail Sample.get_request 2024 1 5 "first" Sample.world_dup).1
     = Raise MultipleObjectsReturned.
Proof.
  split; [|vm_compute; reflexivity].
  intros Huniq.
  assert (Heq : Sample.p1 = Sample.p7).
  { apply Huniq; try reflexivity.
    - apply list_elem_of_here.
    - apply list_elem_of_further, list_elem_of_further, list_elem_of_here. }
  discriminate Heq.
Qed.

End OnSample.

(** ** Every path of the handlers *)

Lemma filter_none {A} (P : A -> Prop) `{!forall x, Decision (P x)}
    (l : list A) :
  (forall x, x ∈ l -> ~ P x) -> filter P l = [].
Proof.
  intros Hno. destruct (filter P l) as [|x k] eqn:Hf; [done|].
  assert (Hx : x ∈ filter P l) by (rewrite Hf; apply list_elem_of_here).
  apply list_elem_of_filter in Hx as [HP Hin]. by destruct (Hno x Hin).
Qed.

Lemma filter_some {A} (P : A -> Prop) `{!forall x, Decision (P x)}
    (l : list A) (x : A) :
  x ∈ l -> P x -> filter P l ≠ [].
Proof.
  intros Hin HP Hf.
  assert (Hx : x ∈ filter P l) by (by apply list_elem_of_filter).
  rewrite Hf in Hx. by apply elem_of_nil in Hx.
Qed.

(** With a unique primary key, the lookup by id finds one row at most. *)
Lemma filter_pk_at_most_one (l : list Post) (k : Z) (Q : Post -> Prop)
    `{!forall p, Decision (Q p)} :
  NoDup (Post_id <$> l) ->
  filter (fun p => Post_id p = k /\ Q p) l = []
  \/ exists post, post ∈ l /\ Post_id post = k /\ Q post
                  /\ filter (fun p => Post_id p = k /\ Q p) l = [post].
Proof.
  intros Hnd.
  destruct (filter (fun p => Post_id p = k /\ Q p) l) as [|x r] eqn:Hf;
    [by left|right].
  assert (Hx : x ∈ filter (fun p => Post_id p = k /\ Q p) l)
    by (rewrite Hf; apply list_elem_of_here).
  apply list_elem_of_filter in Hx as [[Hid HQ] Hin].
  exists x. repeat split; try done.
  rewrite <- Hf. subst k. by apply filter_pk.
Qed.

Lemma no_published_post_lookup w post_id :
  no_published_post w post_id ->
  filter (fun p => Post_id p = post_id /\ Post_status p = PUBLISHED) (posts w)
  = [].
Proof. intros Hno. by apply filter_none. Qed.

(** A form is valid exactly when every field accepts its value. *)
Lemma fold_all_accepted d fields acc :
  (forall n f, (n, f) ∈ fields -> exists v, clean f (d !! n) = inr v) ->
  (fold_left (clean_field d) fields acc).1 = acc.1.
Proof.
  revert acc. induction fields as [|nf fields IH]; intros acc Hall; [done|].
  cbn. rewrite IH.
  - destruct nf as [n f]. destruct (Hall n f) as [v Hv]; [apply list_elem_of_here|].
    unfold clean_field. cbn. by rewrite Hv.
  - intros n f Hin. apply Hall. by apply list_elem_of_further.
Qed.

Lemma is_valid_iff fields d :
  is_valid (Form_init fields (Some d)) = true
  <-> forall n f, (n, f) ∈ fields -> exists v, clean f (d !! n) = inr v.
Proof.
  unfold is_valid. cbn. rewrite bool_decide_eq_true. split.
  - intros He n f Hin. by eapply fold_accepted.
  - intros Hall. unfold full_clean. by rewrite fold_all_accepted.
Qed.

Section Runs.
Context `{BlogApp}.

Lemma post_share_run_missing request post_id w :
  filter (fun p => Post_id p = post_id /\ Post_status p = PUBLISHED) (posts w)
  = [] ->
  post_share request post_id w
  = (Raise Http404, logged (SELECT "blog_post") w).
Proof.
  intros Hf. unfold post_share, bind. by rewrite get_object_or_404_none.
Qed.

Lemma post_share_run_many request post_id w p q l :
  filter (fun p => Post_id p = post_id /\ Post_status p = PUBLISHED) (posts w)
  = p :: q :: l ->
  post_share request post_id w
  = (Raise MultipleObjectsReturned, logged (SELECT "blog_post") w).
Proof.
  intros Hf. unfold post_share, bind.
  by rewrite (get_object_or_404_many _ _ p q l).
Qed.

Lemma post_share_run_other request post_id w post :
  filter (fun p => Post_id p = post_id /\ Post_status p = PUBLISHED) (posts w)
  = [post] ->
  method request ≠ "POST" ->
  post_share request post_id w
  = (Ok (TemplateResponse "blog/post/share.html"
           (share_context post (EmailPostForm None) false)),
     logged (SELECT "blog_post") w).
Proof.
  intros Hf Hm. unfold post_share, bind.
  rewrite (get_object_or_404_one _ _ post Hf).
  by rewrite bool_decide_eq_false_2.
Qed.

Lemma post_share_run_invalid request post_id w post :
  filter (fun p => Post_id p = post_id /\ Post_status p = PUBLISHED) (posts w)
  = [post] ->
  method request = "POST" ->
  is_valid (EmailPostForm (Some (POST request))) = false ->
  post_share request post_id w
  = (Ok (TemplateResponse "blog/post/share.html"
           (share_context post (EmailPostForm (Some (POST request))) false)),
     logged (SELECT "blog_post") w).
Proof.
  intros Hf Hm Hv. unfold post_share, bind.
  rewrite (get_object_or_404_one _ _ post Hf).
  rewrite Hm, bool_decide_eq_true_2 by done. by rewrite Hv.
Qed.

Lemma post_share_run_valid request post_id w post :
  filter (fun p => Post_id p = post_id /\ Post_status p = PUBLISHED) (posts w)
  = [post] ->
  method request = "POST" ->
  is_valid (EmailPostForm (Some (POST request))) = true ->
  exists name email to comments,
    clean EmailPostForm_name (POST request !! "name") = inr name
    /\ clean EmailPostForm_email (POST request !! "email") = inr email
    /\ clean EmailPostForm_to (POST request !! "to") = inr to
    /\ clean EmailPostForm_comments (POST request !! "comments") = inr comments
    /\ post_share request post_id w
       = (match mail_fault (share_mail request post name email to comments)
          with
          | Some e => Raise e
          | None =>
              Ok (TemplateResponse "blog/post/share.html"
                    (share_context post
                       (EmailPostForm (Some (POST request))) true))
          end,
          mailed (share_mail request post name email to comments)
            (logged (SELECT "blog_post") w)).
Proof.
  intros Hf Hm Hv. unfold post_share, bind.
  rewrite (get_object_or_404_one _ _ post Hf).
  rewrite Hm, bool_decide_eq_true_2 by done. rewrite Hv.
  destruct (is_valid_cleaned _ _ "name" EmailPostForm_name
              EmailPostForm_fields_NoDup ltac:(set_solver) Hv) as (vn & Hcn & Hln).
  destruct (is_valid_cleaned _ _ "email" EmailPostForm_email
              EmailPostForm_fields_NoDup ltac:(set_solver) Hv) as (ve & Hce & Hle).
  destruct (is_valid_cleaned _ _ "to" EmailPostForm_to
              EmailPostForm_fields_NoDup ltac:(set_solver) Hv) as (vt & Hct & Hlt).
  destruct (is_valid_cleaned _ _ "comments" EmailPostForm_comments
              EmailPostForm_fields_NoDup ltac:(set_solver) Hv) as (vc & Hcc & Hlc).
  exists vn, ve, vt, vc. repeat (split; [done|]).
  unfold dict_get, EmailPostForm in *. rewrite Hln, Hle, Hlt, Hlc.
  unfold send_mail, ret. cbn -[mail_fault].
  fold (share_mail request post vn ve vt vc).
  by destruct (mail_fault (share_mail request post vn ve vt vc)).
Qed.

Lemma post_comment_view_run_missing request post_id w :
  filter (fun p => Post_id p = post_id /\ Post_status p = PUBLISHED) (posts w)
  = [] ->
  post_comment_view request post_id w
  = (Raise Http404, logged (SELECT "blog_post") w).
Proof.
  intros Hf. unfold post_comment_view, bind.
  by rewrite get_object_or_404_none.
Qed.

Lemma post_comment_view_run_many request post_id w p q l :
  filter (fun p => Post_id p = post_id /\ Post_status p = PUBLISHED) (posts w)
  = p :: q :: l ->
  post_comment_view request post_id w
  = (Raise MultipleObjectsReturned, logged (SELECT "blog_post") w).
Proof.
  intros Hf. unfold post_comment_view, bind.
  by rewrite (get_object_or_404_many _ _ p q l).
Qed.

Lemma post_comment_view_run_invalid request post_id w post :
  filter (fun p => Post_id p = post_id /\ Post_status p = PUBLISHED) (posts w)
  = [post] ->
  is_valid (CommentForm (Some (POST request))) = false ->
  post_comment_view request post_id w
  = (Ok (TemplateResponse "blog/post/comment.html"
           (comment_context post (CommentForm (Some (POST request))) None)),
     logged (SELECT "blog_post") w).
Proof.
  intros Hf Hv. unfold post_comment_view, bind.
  rewrite (get_object_or_404_one _ _ post Hf). by rewrite Hv.
Qed.

Lemma post_comment_view_run_valid request post_id w post :
  filter (fun p => Post_id p = post_id /\ Post_status p = PUBLISHED) (posts w)
  = [post] ->
  is_valid (CommentForm (Some (POST request))) = true ->
  exists name email body,
    clean CommentForm_name (POST request !! "name") = inr name
    /\ clean CommentForm_email (POST request !! "email") = inr email
    /\ clean CommentForm_body (POST request !! "body") = inr body
    /\ let comment :=
         mkComment (Some (next_pk (comments w))) (Some (Post_id post))
           name email body true in
       post_comment_view request post_id w
       = (Ok (TemplateResponse "blog/post/comment.html"
                (comment_context post (CommentForm (Some (POST request)))
                   (Some comment))),
          inserted comment (logged (SELECT "blog_post") w)).
Proof.
  intros Hf Hv. unfold post_comment_view, bind.
  rewrite (get_object_or_404_one _ _ post Hf). rewrite Hv.
  unfold ModelForm_save_no_commit.
  pose proof Hv as Hv'. unfold is_valid in Hv'.
  apply andb_true_iff in Hv' as [_ He]. rewrite He.
  destruct (is_valid_cleaned _ _ "name" CommentForm_name
              CommentForm_fields_NoDup ltac:(set_solver) Hv) as (vn & Hcn & Hln).
  destruct (is_valid_cleaned _ _ "email" CommentForm_email
              CommentForm_fields_NoDup ltac:(set_solver) Hv) as (ve & Hce & Hle).
  destruct (is_valid_cleaned _ _ "body" CommentForm_body
              CommentForm_fields_NoDup ltac:(set_solver) Hv) as (vb & Hcb & Hlb).
  exists vn, ve, vb. repeat (split; [done|]).
  unfold construct_instance, CommentForm in *. by rewrite Hln, Hle, Hlb.
Qed.

End Runs.

Section Cases.
Context `{BlogApp}.

(** The five ways [post_share] can go. *)
Lemma post_share_cases request post_id w :
  let found :=
    filter (fun p => Post_id p = post_id /\ Post_status p = PUBLISHED)
      (posts w) in
  (found = []
   /\ post_share request post_id w
      = (Raise Http404, logged (SELECT "blog_post") w))
  \/ ((exists p q l, found = p :: q :: l)
      /\ post_share request post_id w
         = (Raise MultipleObjectsReturned, logged (SELECT "blog_post") w))
  \/ (exists post,
        found = [post] /\ method request ≠ "POST"
        /\ post_share request post_id w
           = (Ok (TemplateResponse "blog/post/share.html"
                    (share_context post (EmailPostForm None) false)),
              logged (SELECT "blog_post") w))
  \/ (exists post,
        found = [post] /\ method request = "POST"
        /\ is_valid (EmailPostForm (Some (POST request))) = false
        /\ post_share request post_id w
           = (Ok (TemplateResponse "blog/post/share.html"
                    (share_context post
                       (EmailPostForm (Some (POST request))) false)),
              logged (SELECT "blog_post") w))
  \/ (exists post m,
        found = [post] /\ method request = "POST"
        /\ is_valid (EmailPostForm (Some (POST request))) = true
        /\ recipient_list m ≠ []
        /\ post_share request post_id w
           = (match mail_fault m with
              | Some e => Raise e
              | None =>
                  Ok (TemplateResponse "blog/post/share.html"
                        (share_context post
                           (EmailPostForm (Some (POST request))) true))
              end,
              mailed m (logged (SELECT "blog_post") w))).
Proof.
  intros found. subst found.
  destruct (filter _ (posts w)) as [|post [|q l]] eqn:Hf.
  - left. split; [done|]. by apply post_share_run_missing.
  - right; right.
    destruct (decide (method request = "POST")) as [Hm|Hm].
    + right.
      destruct (is_valid (EmailPostForm (Some (POST request)))) eqn:Hv.
      * right.
        destruct (post_share_run_valid request post_id w post Hf Hm Hv)
          as (name & email & to & cs & _ & _ & _ & _ & Hrun).
        exists post, (share_mail request post name email to cs).
        by rewrite Hrun.
      * left. exists post. repeat (split; [done|]).
        by apply post_share_run_invalid.
    + left. exists post. repeat (split; [done|]).
      by apply post_share_run_other.
  - right; left. split; [eauto|]. by eapply post_share_run_many.
Qed.

(** The ways [post_comment] can go. *)
Lemma post_comment_cases request post_id w :
  let found :=
    filter (fun p => Post_id p = post_id /\ Post_status p = PUBLISHED)
      (posts w) in
  (method request ≠ "POST"
   /\ post_comment request post_id w
      = (Ok (HttpResponseNotAllowed ["POST"]), w))
  \/ (method request = "POST" /\ found = []
      /\ post_comment request post_id w
         = (Raise Http404, logged (SELECT "blog_post") w))
  \/ (method request = "POST" /\ (exists p q l, found = p :: q :: l)
      /\ post_comment request post_id w
         = (Raise MultipleObjectsReturned, logged (SELECT "blog_post") w))
  \/ (exists post,
        method request = "POST" /\ found = [post]
        /\ is_valid (CommentForm (Some (POST request))) = false
        /\ post_comment request post_id w
           = (Ok (TemplateResponse "blog/post/comment.html"
                    (comment_context post
                       (CommentForm (Some (POST request))) None)),
              logged (SELECT "blog_post") w))
  \/ (exists post name email body,
        method request = "POST" /\ found = [post]
        /\ is_valid (CommentForm (Some (POST request))) = true
        /\ post_comment request post_id w
           = (Ok (TemplateResponse "blog/post/comment.html"
                    (comment_context post
                       (CommentForm (Some (POST request)))
                       (Some (mkComment (Some (next_pk (comments w)))
                                (Some (Post_id post)) name email body true)))),
              inserted
                (mkComment (Some (next_pk (comments w)))
                   (Some (Post_id post)) name email body true)
                (logged (SELECT "blog_post") w))).
Proof.
  intros found. subst found. unfold post_comment.
  destruct (decide (method request = "POST")) as [Hm|Hm].
  2: { left. split; [done|]. by rewrite require_POST_rejected. }
  right. rewrite require_POST_allowed by done.
  destruct (filter _ (posts w)) as [|post [|q l]] eqn:Hf.
  - left. repeat (split; [done|]). by apply post_comment_view_run_missing.
  - right; right.
    destruct (is_valid (CommentForm (Some (POST request)))) eqn:Hv.
    + right.
      destruct (post_comment_view_run_valid request post_id w post Hf Hv)
        as (name & email & body & _ & _ & _ & Hrun).
      exists post, name, email, body. by repeat (split; [done|]).
    + left. exists post. repeat (split; [done|]).
      by apply post_comment_view_run_invalid.
  - right; left. split; [done|]. split; [eauto|].
    by eapply post_comment_view_run_many.
Qed.

End Cases.

(** ** Further properties of the handlers *)
Section Further.
Context `{BlogApp}.

(** X1: where no published post has the key, [post_share] raises Http404
    whatever the method and the submitted fields; no mail is sent and the
    tables are as before. *)
Theorem post_share_unknown_post request post_id w :
  no_published_post w post_id ->
  (post_share request post_id w).1 = Raise Http404
  /\ outbox (post_share request post_id w).2 = outbox w
  /\ comments (post_share request post_id w).2 = comments w
  /\ posts (post_share request post_id w).2 = posts w.
Proof.
  intros Hno. apply no_published_post_lookup in Hno.
  by rewrite post_share_run_missing.
Qed.

(** X2: where no published post has the key, a POST to [post_comment]
    raises Http404 whatever fields it carries, valid or not, and no comment
    is stored. *)
Theorem post_comment_unknown_post request post_id w :
  method request = "POST" ->
  no_published_post w post_id ->
  (post_comment request post_id w).1 = Raise Http404
  /\ comments (post_comment request post_id w).2 = comments w
  /\ outbox (post_comment request post_id w).2 = outbox w.
Proof.
  intros Hm Hno. apply no_published_post_lookup in Hno.
  unfold post_comment. rewrite require_POST_allowed by done.
  by rewrite post_comment_view_run_missing.
Qed.

(** A draft is the only row under its key, so no published post has it. *)
Lemma draft_no_published_post w post :
  pk_unique w -> post ∈ posts w -> Post_status post = DRAFT ->
  no_published_post w (Post_id post).
Proof.
  intros Hpk Hin Hd p Hp [Hid Hst].
  pose proof (filter_pk (posts w) post (fun _ => True) Hpk Hin I) as Hf.
  assert (Hpf : p ∈ filter (fun q => Post_id q = Post_id post /\ True)
                    (posts w)) by (by apply list_elem_of_filter).
  rewrite Hf in Hpf. apply list_elem_of_singleton in Hpf. subst p. congruence.
Qed.

(** X3: a draft can be neither shared nor commented on: under its key both
    [post_share] and a POST to [post_comment] raise Http404, and nothing is
    sent or stored. *)
Theorem draft_post_hidden request post_id w post :
  pk_unique w ->
  post ∈ posts w -> Post_id post = post_id -> Post_status post = DRAFT ->
  (post_share request post_id w).1 = Raise Http404
  /\ outbox (post_share request post_id w).2 = outbox w
  /\ (method request = "POST" ->
      (post_comment request post_id w).1 = Raise Http404
      /\ comments (post_comment request post_id w).2 = comments w).
Proof.
  intros Hpk Hin <- Hd.
  pose proof (no_published_post_lookup _ _
                (draft_no_published_post w post Hpk Hin Hd)) as Hf.
  rewrite post_share_run_missing by done. split; [done|]. split; [done|].
  intros Hm. unfold post_comment. rewrite require_POST_allowed by done.
  by rewrite post_comment_view_run_missing.
Qed.

(** X4: the one message of a valid share is composed from the cleaned
    fields and the post: the subject names the sender, the sender's address
    and the title; the body gives the title, the absolute URL of the post
    and the sender's comments after a blank line; no sender address is
    passed, and the cleaned [to] is the only recipient. *)
Theorem post_share_mail_content request post_id w post :
  method request = "POST" ->
  pk_unique w ->
  published_post w post_id post ->
  is_valid (EmailPostForm (Some (POST request))) = true ->
  exists name email to comments,
    clean EmailPostForm_name (POST request !! "name") = inr name
    /\ clean EmailPostForm_email (POST request !! "email") = inr email
    /\ clean EmailPostForm_to (POST request !! "to") = inr to
    /\ clean EmailPostForm_comments (POST request !! "comments")
       = inr comments
    /\ outbox (post_share request post_id w).2
       = outbox w
         ++ [mkEmail
               (name +:+ " (" +:+ email +:+ ") recommends you read "
                +:+ Post_title post)
               ("Read " +:+ Post_title post +:+ " at "
                +:+ build_absolute_uri request (get_absolute_url post)
                +:+ LF +:+ LF +:+ name +:+ "'s comments: " +:+ comments)
               None [to]].
Proof.
  intros Hm Hpk Hpost Hv.
  pose proof (published_post_lookup w post_id post Hpk Hpost) as Hf.
  destruct (post_share_run_valid request post_id w post Hf Hm Hv)
    as (name & email & to & cs & Hn & He & Ht & Hc & Hrun).
  exists name, email, to, cs. repeat (split; [done|]). by rewrite Hrun.
Qed.

(** X5: a POST to [post_share] on a published post hands its message to
    the mail facility exactly when each of the four fields accepts its
    value.  A page with the [sent] flag set is rendered exactly when,
    besides, the mail facility takes the message; where it raises, the
    exception leaves the view.  Where a field is refused the outbox is as
    before and [sent] is unset. *)
Theorem post_share_sends_iff_accepted request post_id w post :
  method request = "POST" ->
  pk_unique w ->
  published_post w post_id post ->
  let all_accepted :=
    accepts EmailPostForm_name (POST request !! "name")
    /\ accepts EmailPostForm_email (POST request !! "email")
    /\ accepts EmailPostForm_to (POST request !! "to")
    /\ accepts EmailPostForm_comments (POST request !! "comments") in
  ((exists m, outbox (post_share request post_id w).2 = outbox w ++ [m])
   <-> all_accepted)
  /\ (context_of (post_share request post_id w) !! "sent" = Some (VBool true)
      <-> all_accepted /\ rendered (post_share request post_id w))
  /\ (all_accepted ->
      exists m,
        outbox (post_share request post_id w).2 = outbox w ++ [m]
        /\ (mail_fault m = None -> rendered (post_share request post_id w))
        /\ (forall e, mail_fault m = Some e ->
                      (post_share request post_id w).1 = Raise e))
  /\ (~ all_accepted ->
      outbox (post_share request post_id w).2 = outbox w
      /\ context_of (post_share request post_id w) !! "sent"
         = Some (VBool false)).
Proof.
  intros Hm Hpk Hpost all_accepted.
  pose proof (published_post_lookup w post_id post Hpk Hpost) as Hf.
  assert (Hiff : is_valid (EmailPostForm (Some (POST request))) = true
                 <-> all_accepted).
  { unfold EmailPostForm. rewrite is_valid_iff. subst all_accepted.
    unfold accepts. split.
    - intros Hall. repeat split; apply Hall; set_solver.
    - intros (Hn & He & Ht & Hc) n f Hin.
      repeat (apply elem_of_cons in Hin as [Heq|Hin];
              [by injection Heq as -> ->|]).
      by apply elem_of_nil in Hin. }
  destruct (is_valid (EmailPostForm (Some (POST request)))) eqn:Hv.
  - assert (Hacc : all_accepted) by (by apply Hiff).
    destruct (post_share_run_valid request post_id w post Hf Hm Hv)
      as (name & email & to & cs & _ & _ & _ & _ & Hrun).
    rewrite Hrun. unfold context_of, rendered. cbn -[mail_fault].
    destruct (mail_fault (share_mail request post name email to cs))
      as [e|] eqn:Hfault.
    + split; [split; eauto|]. split.
      { split; [by rewrite lookup_empty|]. by intros [_ (? & ? & ?)]. }
      split; [|done]. intros _. eexists. split; [done|].
      rewrite Hfault. split; [done|]. intros e' He'. by injection He' as ->.
    + split; [split; eauto|]. split.
      { split; [|done]. intros _. split; [done|]. by eexists _, _. }
      split; [|done]. intros _. eexists. split; [done|].
      rewrite Hfault. split; [|done]. intros _. by eexists _, _.
  - assert (Hnacc : ~ all_accepted).
    { intros Hacc. apply Hiff in Hacc. done. }
    rewrite (post_share_run_invalid request post_id w post Hf Hm Hv).
    unfold context_of. cbn.
    split; [|split; [|split]]; [split|split| |done]; try done.
    + intros [m Hout]. apply (f_equal length) in Hout.
      rewrite length_app in Hout. cbn in Hout. lia.
    + by intros [? _].
Qed.

(** X6: a POST to [post_comment] on a published post stores a comment
    exactly when each of the three fields accepts its value; otherwise the
    table is as before and the comment slot of the page is None. *)
Theorem post_comment_persists_iff_accepted request post_id w post :
  method request = "POST" ->
  pk_unique w ->
  published_post w post_id post ->
  let all_accepted :=
    accepts CommentForm_name (POST request !! "name")
    /\ accepts CommentForm_email (POST request !! "email")
    /\ accepts CommentForm_body (POST request !! "body") in
  ((exists c, comments (post_comment request post_id w).2
              = comments w ++ [c])
   <-> all_accepted)
  /\ (~ all_accepted ->
      comments (post_comment request post_id w).2 = comments w
      /\ context_of (post_comment request post_id w) !! "comment"
         = Some VNone).
Proof.
  intros Hm Hpk Hpost all_accepted.
  pose proof (published_post_lookup w post_id post Hpk Hpost) as Hf.
  assert (Hiff : is_valid (CommentForm (Some (POST request))) = true
                 <-> all_accepted).
  { unfold CommentForm. rewrite is_valid_iff. subst all_accepted.
    unfold accepts. split.
    - intros Hall. repeat split; apply Hall; set_solver.
    - intros (Hn & He & Hb) n f Hin.
      repeat (apply elem_of_cons in Hin as [Heq|Hin];
              [by injection Heq as -> ->|]).
      by apply elem_of_nil in Hin. }
  unfold post_comment. rewrite require_POST_allowed by done.
  destruct (is_valid (CommentForm (Some (POST request)))) eqn:Hv.
  - assert (Hacc : all_accepted) by (by apply Hiff).
    destruct (post_comment_view_run_valid request post_id w post Hf Hv)
      as (name & email & body & _ & _ & _ & Hrun).
    cbn in Hrun. rewrite Hrun. cbn. split; [split; eauto|done].
  - assert (Hnacc : ~ all_accepted).
    { intros Hacc. apply Hiff in Hacc. done. }
    rewrite (post_comment_view_run_invalid request post_id w post Hf Hv).
    unfold context_of. cbn. split; [split|done]; [|done].
    intros [c Hout]. apply (f_equal length) in Hout.
    rewrite length_app in Hout. cbn in Hout. lia.
Qed.

End Further.

Section Frames.
Context `{BlogApp}.

(** X7: whatever the request, [post_share] leaves both tables as they were
    and hands at most one message to the mail facility, and only on a
    POST. *)
Theorem post_share_store_untouched request post_id w :
  posts (post_share request post_id w).2 = posts w
  /\ comments (post_share request post_id w).2 = comments w
  /\ (outbox (post_share request post_id w).2 = outbox w
      \/ exists m, outbox (post_share request post_id w).2 = outbox w ++ [m]
                   /\ method request = "POST"
                   /\ recipient_list m ≠ []).
Proof.
  destruct (decide (method request = "POST")) as [Hm|Hm];
    destruct (filter (fun p => Post_id p = post_id
                               /\ Post_status p = PUBLISHED) (posts w))
      as [|post [|q l]] eqn:Hf;
    try (rewrite post_share_run_missing by done; auto);
    try (rewrite (post_share_run_many _ _ _ post q l) by done; auto);
    try (rewrite (post_share_run_other _ _ _ post) by done; auto).
  destruct (is_valid (EmailPostForm (Some (POST request)))) eqn:Hv.
  - destruct (post_share_run_valid request post_id w post Hf Hm Hv)
      as (name & email & to & cs & _ & _ & _ & _ & Hrun).
    rewrite Hrun. cbn. repeat split. right. eauto.
  - rewrite (post_share_run_invalid _ _ _ post) by done. auto.
Qed.

(** X8: whatever the request, [post_comment] sends no mail and leaves the
    posts as they were; the stored comments stay as they were, in order,
    and at most one row is added behind them: an active comment of the
    post with the requested key, on a POST. *)
Theorem post_comment_appends_at_most_one request post_id w :
  posts (post_comment request post_id w).2 = posts w
  /\ outbox (post_comment request post_id w).2 = outbox w
  /\ (comments (post_comment request post_id w).2 = comments w
      \/ exists c,
           comments (post_comment request post_id w).2 = comments w ++ [c]
           /\ Comment_post c = Some post_id
           /\ Comment_active c = true
           /\ method request = "POST").
Proof.
  destruct (post_comment_cases request post_id w)
    as [[_ Hr]|[(_ & _ & Hr)|[(_ & _ & Hr)|[(post & _ & _ & _ & Hr)
       |(post & name & email & body & Hm & Hf & _ & Hr)]]]];
    rewrite Hr; cbn; auto.
  repeat split. right. eexists. repeat split; [|done].
  assert (Hin : post ∈ filter (fun p => Post_id p = post_id
                                        /\ Post_status p = PUBLISHED)
                         (posts w)) by (rewrite Hf; apply list_elem_of_here).
  apply list_elem_of_filter in Hin as [[Hid _] _]. cbn. by rewrite Hid.
Qed.

(** X9: [post_detail] only reads: tables and outbox are as before whatever
    the outcome; and the form of a rendered page is a fresh unbound comment
    form, whatever fields the request carried. *)
Theorem post_detail_read_only request year month day slug w :
  posts (post_detail request year month day slug w).2 = posts w
  /\ comments (post_detail request year month day slug w).2 = comments w
  /\ outbox (post_detail request year month day slug w).2 = outbox w
  /\ (rendered (post_detail request year month day slug w) ->
      context_of (post_detail request year month day slug w) !! "form"
      = Some (VForm (CommentForm None))
      /\ is_bound (CommentForm None) = false
      /\ errors (CommentForm None) = ∅).
Proof.
  destruct (decide (1 <= year <= 9999)) as [Hy|Hy].
  2: { rewrite post_detail_year_out_of_range by done.
       repeat (split; [done|]). by intros (? & ? & ?). }
  unfold rendered, context_of, post_detail, bind.
  rewrite year_lookup_bounds_passes by done.
  unfold get_object_or_404, bind, log_op, Post_comments_filter_active. cbn.
  destruct (filter _ (posts w)) as [|p [|q l]]; cbn;
    (split; [done|split; [done|split; [done|]]]).
  - by intros (? & ? & ?).
  - done.
  - by intros (? & ? & ?).
Qed.

(** The key the store hands out is not among the keys in use. *)
Lemma next_pk_not_used (cs : list Comment) : next_pk cs ∉ omap Comment_pk cs.
Proof.
  intros Hin. apply list_elem_of_omap in Hin as (c & Hc & Hk).
  pose proof (next_pk_fresh cs c _ Hc Hk). lia.
Qed.

(** X10: [post_comment] keeps the comment table keyed: if every stored
    comment has a primary key and no two share one, the same holds after
    the request, whatever it was. *)
Theorem post_comment_keeps_comments_keyed request post_id w :
  comments_keyed w ->
  comments_keyed (post_comment request post_id w).2.
Proof.
  intros [Hall Hnd]. unfold comments_keyed.
  destruct (post_comment_cases request post_id w)
    as [[_ Hr]|[(_ & _ & Hr)|[(_ & _ & Hr)|[(post & _ & _ & _ & Hr)
       |(post & name & email & body & Hm & Hf & _ & Hr)]]]];
    rewrite Hr; cbn; try done.
  split.
  - apply Forall_app. split; [done|]. apply Forall_singleton. by eexists.
  - rewrite omap_app. cbn. apply NoDup_app. split; [done|]. split.
    + intros k Hk Hk'. apply list_elem_of_singleton in Hk'. subst k.
      by apply next_pk_not_used in Hk.
    + apply NoDup_singleton.
Qed.

(** X11: a comment stored through [post_comment] shows on the page of its
    post: where slug and day single out the post, [post_detail] after the
    comment lists what it listed before, followed by the new comment. *)
Theorem comment_then_detail request request' post_id year month day slug
    w post :
  method request = "POST" ->
  pk_unique w ->
  published_post w post_id post ->
  is_valid (CommentForm (Some (POST request))) = true ->
  filter (published_on year month day slug) (posts w) = [post] ->
  exists comment cs,
    context_of (post_comment request post_id w) !! "comment"
    = Some (VComment comment)
    /\ context_of (post_detail request' year month day slug w) !! "comments"
       = Some (VComments cs)
    /\ context_of (post_detail request' year month day slug
                     (post_comment request post_id w).2) !! "comments"
       = Some (VComments (cs ++ [comment])).
Proof.
  intros Hm Hpk Hpost Hv Hd.
  pose proof (published_post_lookup w post_id post Hpk Hpost) as Hf.
  unfold post_comment. rewrite require_POST_allowed by done.
  destruct (post_comment_view_run_valid request post_id w post Hf Hv)
    as (name & email & body & _ & _ & _ & Hrun).
  cbn in Hrun. rewrite Hrun.
  rewrite (post_detail_found request' year month day slug w post Hd).
  cbn [snd].
  rewrite (post_detail_found request' year month day slug
             (inserted _ (logged (SELECT "blog_post") w)) post Hd).
  unfold context_of. cbn.
  eexists _, _. split; [done|]. split; [done|].
  rewrite filter_app. rewrite filter_cons_True by done. done.
Qed.

(** The two exceptions [send_mail] raises. *)
Lemma mail_fault_kinds m e :
  mail_fault m = Some e -> e = BadHeaderError \/ e = MailTransportFailure.
Proof.
  unfold mail_fault. destruct (has_line_break (subject m)).
  - intros Heq. injection Heq as <-. by left.
  - destruct (mail_transport m); [done|].
    intros Heq. injection Heq as <-. by right.
Qed.

(** X12: with unique primary keys, [post_share] raises Http404 exactly when
    no published post has the key.  Under the key of a published post it
    renders its page, unless the request is a valid POST whose message the
    mail facility refuses: then the message was handed over and the
    exception of the mail facility (a bad header or a failure of the
    transport) leaves the view.  It ends in no other way. *)
Theorem post_share_outcomes request post_id w :
  pk_unique w ->
  ((post_share request post_id w).1 = Raise Http404
   <-> no_published_post w post_id)
  /\ (rendered (post_share request post_id w) ->
      exists post, published_post w post_id post)
  /\ ((exists post, published_post w post_id post) ->
      rendered (post_share request post_id w)
      \/ (method request = "POST"
          /\ is_valid (EmailPostForm (Some (POST request))) = true
          /\ exists m e,
               outbox (post_share request post_id w).2 = outbox w ++ [m]
               /\ mail_fault m = Some e
               /\ (e = BadHeaderError \/ e = MailTransportFailure)
               /\ (post_share request post_id w).1 = Raise e)).
Proof.
  intros Hpk.
  destruct (filter_pk_at_most_one (posts w) post_id
              (fun p => Post_status p = PUBLISHED) Hpk)
    as [Hf|(post & Hin & Hid & Hst & Hf)].
  - assert (Hno : no_published_post w post_id).
    { intros p Hp HP. exact (filter_some _ _ p Hp HP Hf). }
    rewrite post_share_run_missing by done. cbn.
    split; [done|]. split.
    + by intros (? & ? & ?).
    + intros (post & Hin & Hid & Hst). by destruct (Hno post Hin).
  - assert (Hpub : published_post w post_id post) by done.
    assert (Hyes : ~ no_published_post w post_id).
    { intros Hno. by destruct (Hno post Hin). }
    destruct (post_share_cases request post_id w)
      as [[Hf' _]|[[(p & q & l & Hf') _]|[(p & _ & _ & Hr)
         |[(p & _ & _ & _ & Hr)|(p & m & _ & Hm & Hv & _ & Hr)]]]];
      try (cbn in Hf'; congruence).
    + rewrite Hr. cbn. split; [done|]. split; [eauto|].
      intros _. left. by eexists _, _.
    + rewrite Hr. cbn. split; [done|]. split; [eauto|].
      intros _. left. by eexists _, _.
    + rewrite Hr. cbn -[mail_fault].
      destruct (mail_fault m) as [e|] eqn:Hfault.
      * destruct (mail_fault_kinds m e Hfault) as [->| ->];
          (split; [done|]; split; [by intros (? & ? & ?)|]);
          intros _; right; repeat (split; [done|]);
          eexists m, _; eauto.
      * split; [done|]. split; [eauto|]. intros _. left. by eexists _, _.
Qed.

(** X13: with unique primary keys, a POST to [post_comment] renders its
    page exactly when the key is that of a published post, and raises
    Http404 otherwise; in particular saving the form never fails. *)
Theorem post_comment_outcomes request post_id w :
  method request = "POST" ->
  pk_unique w ->
  (rendered (post_comment request post_id w)
   <-> exists post, published_post w post_id post)
  /\ ((post_comment request post_id w).1 = Raise Http404
      <-> no_published_post w post_id)
  /\ (rendered (post_comment request post_id w)
      \/ (post_comment request post_id w).1 = Raise Http404).
Proof.
  intros Hm Hpk.
  destruct (filter_pk_at_most_one (posts w) post_id
              (fun p => Post_status p = PUBLISHED) Hpk)
    as [Hf|(post & Hin & Hid & Hst & Hf)].
  - assert (Hno : no_published_post w post_id).
    { intros p Hp HP. exact (filter_some _ _ p Hp HP Hf). }
    unfold post_comment. rewrite require_POST_allowed by done.
    rewrite post_comment_view_run_missing by done. cbn.
    split; [|split]; [split|split|by right]; try done.
    + by intros (? & ? & ?).
    + intros (post & Hin & Hid & Hst). by destruct (Hno post Hin).
  - assert (Hpub : published_post w post_id post) by done.
    assert (Hr : rendered (post_comment request post_id w)).
    { destruct (post_comment_cases request post_id w)
        as [[Hm' _]|[(_ & Hf' & _)|[(_ & (p & q & l & Hf') & _)
           |[(p & _ & _ & _ & Hr)|(p & n & e & b & _ & _ & _ & Hr)]]]];
        try done; try (cbn in Hf'; congruence);
        rewrite Hr; by eexists _, _. }
    split; [|split]; [split; eauto| |by left].
    destruct Hr as (t & c & Hr). rewrite Hr. split; [done|].
    intros Hno. by destruct (Hno post Hin).
Qed.

(** X19: [post_share] looks at the submitted fields on a POST only: a
    request with any other method gets the answer of a bare GET, whatever
    it carries. *)
Theorem post_share_other_method_as_get request post_id w :
  method request ≠ "POST" ->
  post_share request post_id w = post_share (mkRequest "GET" ∅ ∅) post_id w.
Proof.
  intros Hm.
  destruct (filter (fun p => Post_id p = post_id
                             /\ Post_status p = PUBLISHED) (posts w))
    as [|post [|q l]] eqn:Hf.
  - by rewrite !post_share_run_missing.
  - by rewrite !(post_share_run_other _ _ _ post).
  - by rewrite !(post_share_run_many _ _ _ post q l).
Qed.

End Frames.

(** ** Further properties of the list view *)
Section ListViewPages.
Context `{BlogApp}.

(** Once the page number is read, the list view asks the paginator for that
    page. *)
Lemma paginate_queryset_asks request w n w0 :
  asks_for_page request w n ->
  paginate_queryset request (published w) paginate_by w0
  = bind (invalid_page_to_404
            (Paginator_page (mkPaginator (published w) paginate_by 0 true) n))
         (fun page =>
            ret (mkPaginator (published w) paginate_by 0 true, page,
                 page_object_list page, has_other_pages page)) w0.
Proof.
  intros [[Hg ->]|[[Hg ->]|[(s & Hg & Hne & Hint)|(Hg & Hint & ->)]]];
    unfold paginate_queryset, bind at 1; rewrite Hg.
  - done.
  - done.
  - destruct s as [|a s]; [done|]. by rewrite Hint.
  - rewrite Hint. done.
Qed.

(** What the list view answers for the page number it read. *)
Lemma PostListView_asks request w n :
  asks_for_page request w n ->
  (1 <= n <= last_page w ->
   exists context,
     PostListView request w
     = (Ok (TemplateResponse "blog/post/list.html" context),
        logged (SELECT "blog_post") w)
     /\ context !! "posts" = Some (VPosts (page_rows w n))
     /\ context !! "object_list" = Some (VPosts (page_rows w n))
     /\ context !! "is_paginated"
        = Some (VBool (bool_decide (n > 1) || bool_decide (n < last_page w)))
     /\ context !! "page_obj"
        = Some (VPage (mkPage (page_rows w n) n
                         (mkPaginator (published w) paginate_by 0 true))))
  /\ (n < 1 \/ last_page w < n ->
      PostListView request w
      = (Raise Http404, logged (SELECT "blog_post") w)).
Proof.
  intros Hasks. unfold PostListView, Post_published_all, log_op, bind.
  change (filter (fun p => Post_status p = PUBLISHED)
            (posts (logged (SELECT "blog_post") w))) with (published w).
  rewrite (paginate_queryset_asks request w n) by done.
  unfold bind, invalid_page_to_404. split.
  - intros Hn. unfold last_page in Hn.
    rewrite (Paginator_page_in_range _ paginate_by) by done.
    cbn. eexists. split; [reflexivity|]. by repeat split.
  - intros Hn. unfold last_page in Hn.
    by rewrite (Paginator_page_out_of_range _ paginate_by).
Qed.

Lemma last_page_bounds w :
  3 * (last_page w - 1) < Z.max 1 (Z.of_nat (length (published w)))
  <= 3 * last_page w.
Proof. apply (num_pages_bounds (published w) 3). lia. Qed.

(** X14: without a page argument, or with an empty one, the list view
    renders the first page: the first three published posts, or fewer, or
    none where nothing is published; it does not raise Http404. *)
Theorem PostListView_default_page request w :
  GET request !! "page" = None \/ GET request !! "page" = Some "" ->
  exists context w',
    PostListView request w
    = (Ok (TemplateResponse "blog/post/list.html" context), w')
    /\ context !! "posts" = Some (VPosts (take 3 (published w)))
    /\ context !! "object_list" = Some (VPosts (take 3 (published w)))
    /\ posts w' = posts w /\ comments w' = comments w.
Proof.
  intros Hg.
  assert (Hasks : asks_for_page request w 1).
  { destruct Hg as [Hg|Hg]; [by left|by right; left]. }
  pose proof (last_page_bounds w) as Hb.
  destruct (PostListView_asks request w 1 Hasks) as [Hin _].
  destruct Hin as (context & Hr & Hp & Ho & _); [lia|].
  exists context, (logged (SELECT "blog_post") w). by repeat split.
Qed.

(** X15: the page argument [last] renders the last page, which holds the
    published posts from row [3 (last - 1)] to the end. *)
Theorem PostListView_last_page request w :
  GET request !! "page" = Some "last" ->
  int "last" = None ->
  exists context w',
    PostListView request w
    = (Ok (TemplateResponse "blog/post/list.html" context), w')
    /\ context !! "posts" = Some (VPosts (page_rows w (last_page w)))
    /\ page_rows w (last_page w)
       = drop (Z.to_nat (3 * (last_page w - 1))) (published w).
Proof.
  intros Hg Hint.
  assert (Hasks : asks_for_page request w (last_page w))
    by (by right; right; right).
  pose proof (last_page_bounds w) as Hb.
  destruct (PostListView_asks request w _ Hasks) as [Hin _].
  destruct Hin as (context & Hr & Hp & _); [lia|].
  exists context, (logged (SELECT "blog_post") w).
  split; [done|]. split; [done|].
  unfold page_rows. replace ((last_page w - 1) * 3) with (3 * (last_page w - 1))
    by lia.
  apply take_ge. rewrite length_drop. lia.
Qed.

(** X16: a page argument that is neither a number nor [last], or a number
    below 1, makes the list view raise Http404. *)
Theorem PostListView_bad_page request w s :
  GET request !! "page" = Some s ->
  s ≠ "" ->
  (int s = None /\ s ≠ "last") \/ (exists n, int s = Some n /\ n < 1) ->
  (PostListView request w).1 = Raise Http404.
Proof.
  intros Hg Hne [[Hint Hlast]|(n & Hint & Hn)].
  - unfold PostListView, bind, Post_published_all, log_op. cbn.
    unfold paginate_queryset, bind. rewrite Hg.
    destruct s as [|a s]; [done|]. rewrite Hint.
    by rewrite bool_decide_eq_false_2.
  - assert (Hasks : asks_for_page request w n)
      by (right; right; left; eauto).
    destruct (PostListView_asks request w n Hasks) as [_ Hout].
    rewrite Hout; [done|by left].
Qed.

(** Consecutive slices of [k] rows make up the front of the list. *)
Lemma concat_slices {A} (l : list A) (k m : nat) :
  concat ((fun j => take k (drop (j * k) l)) <$> seq 0 m) = take (m * k) l.
Proof.
  induction m as [|m IH]; [done|].
  rewrite seq_S, fmap_app, concat_app, IH. cbn.
  rewrite app_nil_r, take_take_drop. f_equal. lia.
Qed.

(** X17: the pages of the list view, from the first to the last, put one
    after the other are the published posts in order: every published post
    is on one page, and nothing else is listed. *)
Theorem PostListView_pages_partition w :
  concat (page_rows w <$> seqZ 1 (last_page w)) = published w
  /\ (forall request n,
        asks_for_page request w n -> 1 <= n <= last_page w ->
        context_of (PostListView request w) !! "posts"
        = Some (VPosts (page_rows w n))).
Proof.
  pose proof (last_page_bounds w) as Hb. split.
  - unfold seqZ. rewrite <- list_fmap_compose.
    rewrite (list_fmap_ext _ (fun j => take 3 (drop (j * 3) (published w)))).
    + rewrite concat_slices. apply take_ge. lia.
    + intros i j _. cbn. unfold page_rows. do 2 f_equal. lia.
  - intros request n Hasks Hn.
    destruct (PostListView_asks request w n Hasks) as [Hin _].
    destruct (Hin Hn) as (context & Hr & Hp & _).
    unfold context_of. by rewrite Hr.
Qed.

(** X18: a rendered page of the list view is flagged as paginated exactly
    when there are more than three published posts. *)
Theorem PostListView_is_paginated request w n :
  asks_for_page request w n ->
  1 <= n <= last_page w ->
  context_of (PostListView request w) !! "is_paginated"
  = Some (VBool (bool_decide (3 < length (published w))%nat)).
Proof.
  intros Hasks Hn. pose proof (last_page_bounds w) as Hb.
  destruct (PostListView_asks request w n Hasks) as [Hin _].
  destruct (Hin Hn) as (context & Hr & _ & _ & Hp & _).
  unfold context_of. rewrite Hr. cbn. rewrite Hp. do 2 f_equal.
  destruct (decide (3 < length (published w))%nat) as [Hlen|Hlen].
  - rewrite (bool_decide_eq_true_2 (3 < _)%nat) by done.
    apply orb_true_iff.
    destruct (decide (n > 1)) as [H1|H1].
    + left. by apply bool_decide_eq_true_2.
    + right. apply bool_decide_eq_true_2. lia.
  - rewrite (bool_decide_eq_false_2 (3 < _)%nat) by done.
    apply orb_false_iff. split; apply bool_decide_eq_false_2; lia.
Qed.

End ListViewPages.

(** ** The further properties on the sample application *)

Lemma no_published_post_Forall w post_id :
  Forall (fun p => ~ (Post_id p = post_id /\ Post_status p = PUBLISHED))
    (posts w) ->
  no_published_post w post_id.
Proof. intros Hall p Hin. by apply (proj1 (Forall_forall _ _) Hall). Qed.

Section FurtherOnSample.
#[local] Existing Instance Sample.app.

Ltac evaluated := apply (bool_decide_unpack _); vm_compute; reflexivity.

Lemma post_share_unknown_post_witness :
  (post_share Sample.share_request 99 Sample.world).1 = Raise Http404
  /\ outbox (post_share Sample.share_request 99 Sample.world).2
     = outbox Sample.world
  /\ comments (post_share Sample.share_request 99 Sample.world).2
     = comments Sample.world
  /\ posts (post_share Sample.share_request 99 Sample.world).2
     = posts Sample.world.
Proof.
  apply (post_share_unknown_post Sample.share_request 99 Sample.world).
  apply no_published_post_Forall. evaluated.
Defined.

Lemma post_comment_unknown_post_witness :
  (post_comment Sample.comment_request 99 Sample.world).1 = Raise Http404
  /\ comments (post_comment Sample.comment_request 99 Sample.world).2
     = comments Sample.world
  /\ outbox (post_comment Sample.comment_request 99 Sample.world).2
     = outbox Sample.world.
Proof.
  apply (post_comment_unknown_post Sample.comment_request 99 Sample.world).
  - reflexivity.
  - apply no_published_post_Forall. evaluated.
Defined.

Lemma draft_post_hidden_witness :
  (post_share Sample.share_request Sample.draft_id Sample.world).1
  = Raise Http404
  /\ outbox (post_share Sample.share_request Sample.draft_id Sample.world).2
     = outbox Sample.world
  /\ (method Sample.share_request = "POST" ->
      (post_comment Sample.share_request Sample.draft_id Sample.world).1
      = Raise Http404
      /\ comments
           (post_comment Sample.share_request Sample.draft_id Sample.world).2
         = comments Sample.world).
Proof.
  apply (draft_post_hidden Sample.share_request Sample.draft_id Sample.world
           Sample.p3).
  - unfold pk_unique. evaluated.
  - evaluated.
  - reflexivity.
  - reflexivity.
Defined.

Lemma post_share_mail_content_witness :
  exists name email to comments,
    clean EmailPostForm_name (POST Sample.share_request !! "name") = inr name
    /\ clean EmailPostForm_email (POST Sample.share_request !! "email")
       = inr email
    /\ clean EmailPostForm_to (POST Sample.share_request !! "to") = inr to
    /\ clean EmailPostForm_comments (POST Sample.share_request !! "comments")
       = inr comments
    /\ outbox (post_share Sample.share_request 2 Sample.world).2
       = outbox Sample.world
         ++ [mkEmail
               (name +:+ " (" +:+ email +:+ ") recommends you read "
                +:+ Post_title Sample.p2)
               ("Read " +:+ Post_title Sample.p2 +:+ " at "
                +:+ build_absolute_uri Sample.share_request
                      (get_absolute_url Sample.p2)
                +:+ LF +:+ LF +:+ name +:+ "'s comments: " +:+ comments)
               None [to]].
Proof.
  apply (post_share_mail_content Sample.share_request 2 Sample.world
           Sample.p2).
  - reflexivity.
  - unfold pk_unique. evaluated.
  - unfold published_post. evaluated.
  - vm_compute. reflexivity.
Defined.

Lemma post_share_sends_iff_accepted_witness :
  let all_accepted :=
    accepts EmailPostForm_name (POST Sample.share_request !! "name")
    /\ accepts EmailPostForm_email (POST Sample.share_request !! "email")
    /\ accepts EmailPostForm_to (POST Sample.share_request !! "to")
    /\ accepts EmailPostForm_comments
         (POST Sample.share_request !! "comments") in
  ((exists m, outbox (post_share Sample.share_request 2 Sample.world).2
              = outbox Sample.world ++ [m])
   <-> all_accepted)
  /\ (context_of (post_share Sample.share_request 2 Sample.world) !! "sent"
      = Some (VBool true)
      <-> all_accepted
          /\ rendered (post_share Sample.share_request 2 Sample.world))
  /\ (all_accepted ->
      exists m,
        outbox (post_share Sample.share_request 2 Sample.world).2
        = outbox Sample.world ++ [m]
        /\ (mail_fault m = None ->
            rendered (post_share Sample.share_request 2 Sample.world))
        /\ (forall e, mail_fault m = Some e ->
                      (post_share Sample.share_request 2 Sample.world).1
                      = Raise e))
  /\ (~ all_accepted ->
      outbox (post_share Sample.share_request 2 Sample.world).2
      = outbox Sample.world
      /\ context_of (post_share Sample.share_request 2 Sample.world)
           !! "sent" = Some (VBool false)).
Proof.
  apply (post_share_sends_iff_accepted Sample.share_request 2 Sample.world
           Sample.p2).
  - reflexivity.
  - unfold pk_unique. evaluated.
  - unfold published_post. evaluated.
Defined.

Lemma post_comment_persists_iff_accepted_witness :
  let all_accepted :=
    accepts CommentForm_name (POST Sample.comment_request !! "name")
    /\ accepts CommentForm_email (POST Sample.comment_request !! "email")
    /\ accepts CommentForm_body (POST Sample.comment_request !! "body") in
  ((exists c, comments (post_comment Sample.comment_request 5
                          Sample.world).2
              = comments Sample.world ++ [c])
   <-> all_accepted)
  /\ (~ all_accepted ->
      comments (post_comment Sample.comment_request 5 Sample.world).2
      = comments Sample.world
      /\ context_of (post_comment Sample.comment_request 5 Sample.world)
           !! "comment" = Some VNone).
Proof.
  apply (post_comment_persists_iff_accepted Sample.comment_request 5
           Sample.world Sample.p5).
  - reflexivity.
  - unfold pk_unique. evaluated.
  - unfold published_post. evaluated.
Defined.

Lemma post_comment_keeps_comments_keyed_witness :
  comments_keyed (post_comment Sample.comment_request 5 Sample.world).2.
Proof.
  apply (post_comment_keeps_comments_keyed Sample.comment_request 5
           Sample.world).
  unfold comments_keyed. evaluated.
Defined.

Lemma comment_then_detail_witness :
  exists comment cs,
    context_of (post_comment Sample.comment_request 1 Sample.world)
      !! "comment" = Some (VComment comment)
    /\ context_of (post_detail Sample.get_request 2024 1 5 "first"
                     Sample.world) !! "comments"
       = Some (VComments cs)
    /\ context_of (post_detail Sample.get_request 2024 1 5 "first"
                     (post_comment Sample.comment_request 1 Sample.world).2)
         !! "comments"
       = Some (VComments (cs ++ [comment])).
Proof.
  apply (comment_then_detail Sample.comment_request Sample.get_request 1
           2024 1 5 "first" Sample.world Sample.p1).
  - reflexivity.
  - unfold pk_unique. evaluated.
  - unfold published_post. evaluated.
  - vm_compute. reflexivity.
  - vm_compute. reflexivity.
Defined.

Lemma post_share_outcomes_witness :
  ((post_share Sample.share_request_line_feed 2 Sample.world).1
   = Raise Http404
   <-> no_published_post Sample.world 2)
  /\ (rendered (post_share Sample.share_request_line_feed 2 Sample.world) ->
      exists post, published_post Sample.world 2 post)
  /\ ((exists post, published_post Sample.world 2 post) ->
      rendered (post_share Sample.share_request_line_feed 2 Sample.world)
      \/ (method Sample.share_request_line_feed = "POST"
          /\ is_valid (EmailPostForm
                         (Some (POST Sample.share_request_line_feed)))
             = true
          /\ exists m e,
               outbox (post_share Sample.share_request_line_feed 2
                         Sample.world).2
               = outbox Sample.world ++ [m]
               /\ mail_fault m = Some e
               /\ (e = BadHeaderError \/ e = MailTransportFailure)
               /\ (post_share Sample.share_request_line_feed 2
                     Sample.world).1 = Raise e)).
Proof.
  apply (post_share_outcomes Sample.share_request_line_feed 2 Sample.world).
  unfold pk_unique. evaluated.
Defined.

Lemma post_comment_outcomes_witness :
  (rendered (post_comment Sample.comment_request 5 Sample.world)
   <-> exists post, published_post Sample.world 5 post)
  /\ ((post_comment Sample.comment_request 5 Sample.world).1 = Raise Http404
      <-> no_published_post Sample.world 5)
  /\ (rendered (post_comment Sample.comment_request 5 Sample.world)
      \/ (post_comment Sample.comment_request 5 Sample.world).1
         = Raise Http404).
Proof.
  apply (post_comment_outcomes Sample.comment_request 5 Sample.world).
  - reflexivity.
  - unfold pk_unique. evaluated.
Defined.

Lemma post_share_other_method_as_get_witness :
  post_share Sample.put_request 2 Sample.world
  = post_share (mkRequest "GET" ∅ ∅) 2 Sample.world.
Proof.
  apply (post_share_other_method_as_get Sample.put_request 2 Sample.world).
  vm_compute. discriminate.
Defined.

Lemma PostListView_default_page_witness :
  exists context w',
    PostListView Sample.get_request Sample.world
    = (Ok (TemplateResponse "blog/post/list.html" context), w')
    /\ context !! "posts" = Some (VPosts (take 3 (published Sample.world)))
    /\ context !! "object_list"
       = Some (VPosts (take 3 (published Sample.world)))
    /\ posts w' = posts Sample.world /\ comments w' = comments Sample.world.
Proof.
  apply (PostListView_default_page Sample.get_request Sample.world).
  left. reflexivity.
Defined.

Lemma PostListView_last_page_witness :
  exists context w',
    PostListView (Sample.page_request "last") Sample.world
    = (Ok (TemplateResponse "blog/post/list.html" context), w')
    /\ context !! "posts"
       = Some (VPosts (page_rows Sample.world (last_page Sample.world)))
    /\ page_rows Sample.world (last_page Sample.world)
       = drop (Z.to_nat (3 * (last_page Sample.world - 1)))
           (published Sample.world).
Proof.
  apply (PostListView_last_page (Sample.page_request "last") Sample.world).
  - vm_compute. reflexivity.
  - vm_compute. reflexivity.
Defined.

Lemma PostListView_bad_page_witness :
  (PostListView (Sample.page_request "x") Sample.world).1 = Raise Http404.
Proof.
  apply (PostListView_bad_page (Sample.page_request "x") Sample.world "x").
  - vm_compute. reflexivity.
  - discriminate.
  - left. split; [vm_compute; reflexivity|discriminate].
Defined.

Lemma PostListView_is_paginated_witness :
  context_of (PostListView (Sample.page_request "2") Sample.world)
    !! "is_paginated"
  = Some (VBool (bool_decide (3 < length (published Sample.world))%nat)).
Proof.
  apply (PostListView_is_paginated (Sample.page_request "2") Sample.world 2).
  - right; right; left. exists "2".
    split; [vm_compute; reflexivity|]. split; [discriminate|].
    vm_compute. reflexivity.
  - evaluated.
Defined.

End FurtherOnSample.

(** ** How the handlers compose *)
Section Composition.
Context `{BlogApp}.

(** The answers of the two reading views depend on the tables only. *)
Lemma post_detail_depends_on_tables request year month day slug w1 w2 :
  posts w1 = posts w2 -> comments w1 = comments w2 ->
  (post_detail request year month day slug w1).1
  = (post_detail request year month day slug w2).1.
Proof.
  intros Hp Hc. destruct w1, w2. cbn in Hp, Hc. subst.
  unfold post_detail, bind, year_lookup_bounds, get_object_or_404, bind,
    log_op, Post_comments_filter_active.
  case_bool_decide; cbn; [|done].
  by destruct (filter _ _) as [|p [|q l]].
Qed.

Lemma PostListView_depends_on_posts request w1 w2 :
  posts w1 = posts w2 ->
  (PostListView request w1).1 = (PostListView request w2).1.
Proof.
  intros Hp. destruct w1, w2. cbn in Hp. subst.
  unfold PostListView, Post_published_all, log_op, bind. cbn.
  unfold paginate_queryset, bind.
  destruct (GET request !! "page") as [[|a s]|]; cbn.
  - unfold invalid_page_to_404, Paginator_page, validate_number, bind.
    by repeat (case_bool_decide; cbn).
  - destruct (int (String a s)) as [n|]; cbn.
    + unfold invalid_page_to_404, Paginator_page, validate_number, bind.
      by repeat (case_bool_decide; cbn).
    + case_bool_decide; cbn; [|done].
      unfold invalid_page_to_404, Paginator_page, validate_number, bind.
      by repeat (case_bool_decide; cbn).
  - unfold invalid_page_to_404, Paginator_page, validate_number, bind.
    by repeat (case_bool_decide; cbn).
Qed.

Lemma post_share_tables request post_id w :
  posts (post_share request post_id w).2 = posts w
  /\ comments (post_share request post_id w).2 = comments w.
Proof.
  destruct (post_share_cases request post_id w)
    as [[_ Hr]|[[_ Hr]|[(p & _ & _ & Hr)
       |[(p & _ & _ & _ & Hr)|(p & m & _ & _ & _ & _ & Hr)]]]];
    by rewrite Hr.
Qed.

(** X20: a comment stored for one post does not show on the page of
    another: whatever the request to [post_comment] under one key, the page
    [post_detail] renders for a post with another key is the same after it
    as before. *)
Theorem comment_elsewhere_not_shown request request' post_id
    year month day slug w other :
  filter (published_on year month day slug) (posts w) = [other] ->
  Post_id other ≠ post_id ->
  (post_detail request' year month day slug
     (post_comment request post_id w).2).1
  = (post_detail request' year month day slug w).1.
Proof.
  intros Hd Hne.
  destruct (post_comment_cases request post_id w)
    as [[_ Hr]|[(_ & _ & Hr)|[(_ & _ & Hr)|[(post & _ & _ & _ & Hr)
       |(post & name & email & body & Hm & Hf & _ & Hr)]]]];
    rewrite Hr; try (by apply post_detail_depends_on_tables).
  assert (Hin : post ∈ filter (fun p => Post_id p = post_id
                                        /\ Post_status p = PUBLISHED)
                         (posts w)) by (rewrite Hf; apply list_elem_of_here).
  apply list_elem_of_filter in Hin as [[Hid _] _].
  cbn [snd].
  rewrite (post_detail_found request' year month day slug w other Hd).
  rewrite (post_detail_found request' year month day slug
             (inserted _ (logged (SELECT "blog_post") w)) other Hd).
  cbn. rewrite filter_app. rewrite filter_cons_False; [by rewrite app_nil_r|].
  cbn. intros [Heq _]. congruence.
Qed.

(** X21: sharing a post changes no page: after any request to
    [post_share], [post_detail] and the list view answer every request as
    they did before. *)
Theorem post_share_changes_no_page request post_id w request'
    year month day slug :
  (post_detail request' year month day slug
     (post_share request post_id w).2).1
  = (post_detail request' year month day slug w).1
  /\ (PostListView request' (post_share request post_id w).2).1
     = (PostListView request' w).1.
Proof.
  destruct (post_share_tables request post_id w) as [Hp Hc]. split.
  - by apply post_detail_depends_on_tables.
  - by apply PostListView_depends_on_posts.
Qed.

(** X22: the same valid comment posted twice is stored twice: two rows
    behind the earlier ones, alike in post, name, email and body, under two
    different keys. *)
Theorem post_comment_twice request post_id w post :
  method request = "POST" ->
  pk_unique w ->
  published_post w post_id post ->
  is_valid (CommentForm (Some (POST request))) = true ->
  exists c1 c2,
    comments (post_comment request post_id
                (post_comment request post_id w).2).2
    = comments w ++ [c1; c2]
    /\ Comment_post c1 = Comment_post c2
    /\ Comment_name c1 = Comment_name c2
    /\ Comment_email c1 = Comment_email c2
    /\ Comment_body c1 = Comment_body c2
    /\ Comment_pk c1 ≠ Comment_pk c2.
Proof.
  intros Hm Hpk Hpost Hv.
  pose proof (published_post_lookup w post_id post Hpk Hpost) as Hf.
  unfold post_comment. rewrite !require_POST_allowed by done.
  destruct (post_comment_view_run_valid request post_id w post Hf Hv)
    as (name & email & body & Hn & He & Hb & Hrun).
  cbn in Hrun. rewrite Hrun. cbn [snd].
  set (c1 := mkComment (Some (next_pk (comments w))) (Some (Post_id post))
               name email body true) in *.
  set (w1 := inserted c1 (logged (SELECT "blog_post") w)).
  assert (Hf1 : filter (fun p => Post_id p = post_id
                                 /\ Post_status p = PUBLISHED) (posts w1)
                = [post]) by done.
  destruct (post_comment_view_run_valid request post_id w1 post Hf1 Hv)
    as (name' & email' & body' & Hn' & He' & Hb' & Hrun').
  cbn in Hrun'. rewrite Hrun'. cbn.
  rewrite Hn in Hn'. rewrite He in He'. rewrite Hb in Hb'.
  injection Hn' as <-. injection He' as <-. injection Hb' as <-.
  eexists c1, _. split; [by rewrite <- app_assoc|].
  repeat (split; [done|]). cbn. intros Heq. injection Heq as Heq.
  assert (Hlt : next_pk (comments w) < next_pk (comments w ++ [c1])).
  { apply (next_pk_fresh _ c1); [|done].
    apply elem_of_app. right. apply list_elem_of_here. }
  lia.
Qed.

(** X23: the list view only reads: whatever the page argument and the
    outcome, tables and outbox are as before. *)
Theorem PostListView_read_only request w :
  posts (PostListView request w).2 = posts w
  /\ comments (PostListView request w).2 = comments w
  /\ outbox (PostListView request w).2 = outbox w.
Proof.
  unfold PostListView, Post_published_all, log_op, bind. cbn.
  unfold paginate_queryset, bind.
  destruct (GET request !! "page") as [[|a s]|]; cbn.
  - unfold invalid_page_to_404, Paginator_page, validate_number, bind.
    by repeat (case_bool_decide; cbn).
  - destruct (int (String a s)) as [n|]; cbn.
    + unfold invalid_page_to_404, Paginator_page, validate_number, bind.
      by repeat (case_bool_decide; cbn).
    + case_bool_decide; cbn; [|done].
      unfold invalid_page_to_404, Paginator_page, validate_number, bind.
      by repeat (case_bool_decide; cbn).
  - unfold invalid_page_to_404, Paginator_page, validate_number, bind.
    by repeat (case_bool_decide; cbn).
Qed.

End Composition.

Section CompositionOnSample.
#[local] Existing Instance Sample.app.

Lemma comment_elsewhere_not_shown_witness :
  (post_detail Sample.get_request 2024 1 5 "first"
     (post_comment Sample.comment_request 5 Sample.world).2).1
  = (post_detail Sample.get_request 2024 1 5 "first" Sample.world).1.
Proof.
  apply (comment_elsewhere_not_shown Sample.comment_request Sample.get_request
           5 2024 1 5 "first" Sample.world Sample.p1).
  - vm_compute. reflexivity.
  - vm_compute. discriminate.
Defined.

Lemma post_comment_twice_witness :
  exists c1 c2,
    comments (post_comment Sample.comment_request 5
                (post_comment Sample.comment_request 5 Sample.world).2).2
    = comments Sample.world ++ [c1; c2]
    /\ Comment_post c1 = Comment_post c2
    /\ Comment_name c1 = Comment_name c2
    /\ Comment_email c1 = Comment_email c2
    /\ Comment_body c1 = Comment_body c2
    /\ Comment_pk c1 ≠ Comment_pk c2.
Proof.
  apply (post_comment_twice Sample.comment_request 5 Sample.world Sample.p5).
  - reflexivity.
  - unfold pk_unique. apply (bool_decide_unpack _). vm_compute. reflexivity.
  - unfold published_post. apply (bool_decide_unpack _). vm_compute.
    reflexivity.
  - vm_compute. reflexivity.
Defined.

End CompositionOnSample.
